(** * Crossplatform Subsystem Terminals: the command dispatch core

A shallow embedding of [SimpleTerminal] from revisions 1.0.0 and 1.0.1
([main.py]) and the properties of alias expansion, navigation, built-in
dispatch, external delegation and the session loop.

Conventions.
- A Python [str] is a [string]; its characters are the code points
  U+0000..U+00FF (one [ascii] each).
- The host (operating system, [os], [os.path], [platform], [subprocess])
  is a record of operations over an abstract world, see [Host].
- A method of [SimpleTerminal] is a computation in the monad [M]: it
  reads and updates the world and the object [self], may raise, and
  emits the events it performs on the terminal and on the host shell. *)

From Stdlib Require Import Ascii String NArith DecimalString.
From stdpp Require Import base option list strings gmap.

Local Open Scope stdpp_scope.

(** ** Python's string methods *)

Module Py.

(** [str.isspace] on one character (code points below 256). *)
Definition isspace (c : ascii) : bool :=
  let n := N_of_ascii c in
  (((9 <=? n) && (n <=? 13)) || ((28 <=? n) && (n <=? 32))
   || (n =? 133) || (n =? 160))%N.

(** [str.lower] on one character: A-Z and the Latin-1 capitals. *)
Definition lower_char (c : ascii) : ascii :=
  let n := N_of_ascii c in
  if (((65 <=? n) && (n <=? 90))
      || ((192 <=? n) && (n <=? 222) && negb (n =? 215)))%N
  then ascii_of_N (n + 32) else c.

Fixpoint lower (s : string) : string :=
  match s with
  | EmptyString => EmptyString
  | String c s' => String (lower_char c) (lower s')
  end.

(** [s.startswith(p)] *)
Definition startswith (p s : string) : bool := String.prefix p s.

(** [s[n:]] *)
Fixpoint drop (n : nat) (s : string) : string :=
  match n, s with
  | O, _ => s
  | S n', String _ s' => drop n' s'
  | S _, EmptyString => EmptyString
  end.

(** [sep.join(l)] *)
Definition join (sep : string) (l : list string) : string :=
  String.concat sep l.

Fixpoint lstrip (s : string) : string :=
  match s with
  | String c s' => if isspace c then lstrip s' else s
  | EmptyString => EmptyString
  end.

Fixpoint rstrip (s : string) : string :=
  match s with
  | EmptyString => EmptyString
  | String c s' =>
      match rstrip s' with
      | EmptyString => if isspace c then EmptyString else String c EmptyString
      | r => String c r
      end
  end.

(** [s.strip()] *)
Definition strip (s : string) : string := rstrip (lstrip s).

(** [s.split()]: the maximal runs of characters that are not white space.
    [scan s] reads [s] from its end: the first component is the run that
    starts at the first character of [s] (empty when [s] starts with white
    space), the second the runs after it. *)
Definition push (t : string) (l : list string) : list string :=
  match t with
  | EmptyString => l
  | _ => t :: l
  end.

Fixpoint scan (s : string) : string * list string :=
  match s with
  | EmptyString => (EmptyString, [])
  | String c s' =>
      let '(t, l) := scan s' in
      if isspace c then (EmptyString, push t l) else (String c t, l)
  end.

Definition split (s : string) : list string :=
  let '(t, l) := scan s in push t l.

(** The first run of characters that are not white space, and what
    follows it. *)
Fixpoint span (s : string) : string * string :=
  match s with
  | EmptyString => (EmptyString, EmptyString)
  | String c s' =>
      if isspace c then (EmptyString, s)
      else let '(t, r) := span s' in (String c t, r)
  end.

(** [s.split(maxsplit=1)]: the first word, and the rest of the string from
    its first character that is not white space, when there is one. *)
Definition split1 (s : string) : list string :=
  match span (lstrip s) with
  | (EmptyString, _) => []
  | (t, r) =>
      match lstrip r with
      | EmptyString => [t]
      | r' => [t; r']
      end
  end.

(** [s.replace(old, new)] for a pattern [old] of one character. *)
Fixpoint replace (old : ascii) (new : string) (s : string) : string :=
  match s with
  | EmptyString => EmptyString
  | String c s' =>
      if Ascii.eqb c old then new +:+ replace old new s'
      else String c (replace old new s')
  end.

(** [str(n)] for a natural number. *)
Definition str_of_nat (n : nat) : string :=
  NilEmpty.string_of_uint (Nat.to_uint n).

(** [enumerate(l, start)] *)
Fixpoint enumerate {A} (l : list A) (start : nat) : list (nat * A) :=
  match l with
  | [] => []
  | x :: l' => (start, x) :: enumerate l' (S start)
  end.

(** [l[-n:]] for [n > 0]: the last [n] elements, all of [l] when it is
    shorter. *)
Definition last_n {A} (n : nat) (l : list A) : list A :=
  skipn (length l - n) l.

(** [s * n] *)
Fixpoint times (s : string) (n : nat) : string :=
  match n with
  | O => EmptyString
  | S n' => s +:+ times s n'
  end.

(** The line feed character, as a string. *)
Definition nl : string := String (ascii_of_nat 10) EmptyString.

End Py.

(** ** The host and the effects of a method *)

(** What a Python call gives back: a value, or an exception of class
    [Exception] with its message [str(e)]. *)
Inductive result (A : Type) : Type :=
| Ok (a : A)
| Raise (msg : string).
Arguments Ok {A} a.
Arguments Raise {A} msg.

(** What [input(prompt)] gives back. *)
Inductive input_event : Type :=
| Line (s : string)           (* one line of text *)
| KeyboardInterrupt           (* interrupt signal while waiting *)
| EOFError                    (* end of input *)
| InputFailure (msg : string) (* any other [Exception] *).

(** What a method does on the terminal and on the host shell. *)
Inductive event : Type :=
| Stdout (s : string)         (* [print(s)] *)
| Stderr (s : string)         (* [print(s, file=sys.stderr)] *)
| Prompt (s : string)         (* the prompt shown by [input] *)
| System (cmd : string)       (* [os.system(cmd)]: streams inherited *)
| Spawn (cmd cwd : string)    (* [subprocess.Popen(cmd, shell=True, cwd=cwd)] *).

(** The operations of the platform the terminal calls, over a world [W]
    (file system, process working directory, environment).  A failing
    [os.chdir] gives no new world: the world is the one before the call;
    the same is taken for a failing [os.makedirs], whose partial work is
    not modelled.  [os_getcwd] reads the working directory of the
    process; like [os.getcwd()] it raises when the host cannot name that
    directory (it was removed, or a parent cannot be read). *)
Record Host (W : Type) : Type := {
  platform_system : string;                 (* [platform.system()] *)
  platform_release : string;                (* [platform.release()] *)
  platform_node : string;                   (* [platform.node()] *)
  os_getlogin : W -> result string;
  os_getcwd : W -> result string;
  os_chdir : string -> W -> result W;
  os_makedirs : string -> W -> result W;    (* [exist_ok=True] *)
  os_system : string -> W -> W;
  (** [Popen(cmd, shell=True, cwd=cwd, ...)] followed by [communicate()]:
      the decoded streams, or the exception of a failed launch. *)
  popen_communicate : string -> string -> W -> result (string * string) * W;
  path_home : W -> result string;           (* [Path.home()] *)
  path_exists : string -> W -> bool;
  path_isdir : string -> W -> bool;
  path_expanduser : string -> W -> string;
  path_isabs : string -> bool;
  path_join : string -> string -> string;
  path_normpath : string -> string;
  path_dirname : string -> string;
  path_basename : string -> string
}.
Arguments platform_system {W} _.
Arguments platform_release {W} _.
Arguments platform_node {W} _.
Arguments os_getlogin {W} _ _.
Arguments os_getcwd {W} _ _.
Arguments os_chdir {W} _ _ _.
Arguments os_makedirs {W} _ _ _.
Arguments os_system {W} _ _ _.
Arguments popen_communicate {W} _ _ _ _.
Arguments path_home {W} _ _.
Arguments path_exists {W} _ _ _.
Arguments path_isdir {W} _ _ _.
Arguments path_expanduser {W} _ _ _.
Arguments path_isabs {W} _ _.
Arguments path_join {W} _ _ _.
Arguments path_normpath {W} _ _.
Arguments path_dirname {W} _ _.
Arguments path_basename {W} _ _.

(** The attributes of a [SimpleTerminal] object. *)
Record Session : Type := {
  current_dir : string;
  system : string;
  history : list string;
  history_index : Z;
  aliases : gmap string string
}.

(** The state a method runs in: the world, the object [self], and the input
    still to come ([input] on an exhausted source raises [EOFError]). *)
Record St (W : Type) : Type := {
  world : W;
  self : Session;
  stdin : list input_event
}.
Arguments world {W} _.
Arguments self {W} _.
Arguments stdin {W} _.

Definition set_world {W} (w : W) (st : St W) : St W :=
  {| world := w; self := self st; stdin := stdin st |}.
Definition set_self {W} (s : Session) (st : St W) : St W :=
  {| world := world st; self := s; stdin := stdin st |}.
Definition set_current_dir (d : string) (s : Session) : Session :=
  {| current_dir := d; system := system s; history := history s;
     history_index := history_index s; aliases := aliases s |}.
Definition history_append (c : string) (s : Session) : Session :=
  {| current_dir := current_dir s; system := system s;
     history := history s ++ [c];
     history_index := history_index s; aliases := aliases s |}.

(** A computation: result, final state, events emitted (in order).  An
    exception keeps the state changes and the events that came before it. *)
Definition M (W A : Type) : Type := St W -> result A * St W * list event.

Definition ret {W A} (a : A) : M W A := fun st => (Ok a, st, []).
Definition raise {W A} (msg : string) : M W A := fun st => (Raise msg, st, []).
Definition bind {W A B} (m : M W A) (f : A -> M W B) : M W B :=
  fun st =>
    match m st with
    | (Ok a, st1, e1) => let '(r, st2, e2) := f a st1 in (r, st2, e1 ++ e2)
    | (Raise msg, st1, e1) => (Raise msg, st1, e1)
    end.

(** [try: m  except Exception as e: h e] *)
Definition try_except {W A} (m : M W A) (h : string -> M W A) : M W A :=
  fun st =>
    match m st with
    | (Ok a, st1, e1) => (Ok a, st1, e1)
    | (Raise msg, st1, e1) => let '(r, st2, e2) := h msg st1 in (r, st2, e1 ++ e2)
    end.

Notation "'let*' x := m 'in' k" := (bind m (fun x => k))
  (at level 10, x name, m at level 100, k at level 200).

Section Effects.
Context {W : Type} (H : Host W).

Definition emit (e : event) : M W unit := fun st => (Ok tt, st, [e]).
Definition print (s : string) : M W unit := emit (Stdout s).
Definition print_err (s : string) : M W unit := emit (Stderr s).

Definition get_self : M W Session := fun st => (Ok (self st), st, []).
Definition put_self (s : Session) : M W unit :=
  fun st => (Ok tt, set_self s st, []).

(** A call that reads the world. *)
Definition ask {A} (f : W -> A) : M W A := fun st => (Ok (f (world st)), st, []).
(** A call that reads the world and may raise. *)
Definition ask_result {A} (f : W -> result A) : M W A :=
  fun st => (f (world st), st, []).
(** A call that changes the world, or raises and leaves it. *)
Definition act (f : W -> result W) : M W unit :=
  fun st =>
    match f (world st) with
    | Ok w => (Ok tt, set_world w st, [])
    | Raise msg => (Raise msg, st, [])
    end.

Definition SYSTEM (cmd : string) : M W unit :=
  fun st => (Ok tt, set_world (os_system H cmd (world st)) st, [System cmd]).

Definition POPEN (cmd cwd : string) : M W (string * string) :=
  fun st =>
    let '(r, w) := popen_communicate H cmd cwd (world st) in
    (r, set_world w st, [Spawn cmd cwd]).

Definition INPUT (prompt : string) : M W input_event :=
  fun st =>
    match stdin st with
    | [] => (Ok EOFError, st, [Prompt prompt])
    | i :: rest =>
        (Ok i, {| world := world st; self := self st; stdin := rest |},
         [Prompt prompt])
    end.
End Effects.

(** ** The methods both revisions share

[clear_screen], [get_prompt], [expand_aliases] and [change_directory]
have the same body in 1.0.0 and in 1.0.1. *)

Notation "a == b" := (String.eqb a b) (at level 69, no associativity).

(** [x in [a, b, ...]] *)
Definition isin (x : string) (l : list string) : bool :=
  existsb (String.eqb x) l.

Inductive status : Type := Running | Terminated.

(** The entries of the alias table that every platform has. *)
Definition base_aliases : gmap string string :=
  list_to_map
    [("ll", "ls -la"); ("la", "ls -a"); ("cls", "clear"); ("md", "mkdir");
     ("rd", "rmdir"); ("..", "cd .."); ("...", "cd ../..");
     ("....", "cd ../../..")].

Definition expand_aliases (aliases : gmap string string) (command : string)
  : string :=
  match Py.split command with
  | p0 :: rest =>
      match aliases !! p0 with
      | Some v => v +:+ " " +:+ Py.join " " rest
      | None => command
      end
  | [] => command
  end.

Section Shared.
Context {W : Type} (H : Host W).

Definition clear_screen : M W unit :=
  let* s := get_self in
  SYSTEM H (if system s == "windows" then "cls" else "clear").

Definition get_prompt : M W string :=
  let* username := ask_result (os_getlogin H) in
  let hostname := platform_node H in
  let* s := get_self in
  let current_dir := path_basename H (current_dir s) in
  if system s == "windows" then ret ("PS " +:+ current_dir +:+ "> ")
  else if system s == "darwin" then
    ret (username +:+ "@" +:+ hostname +:+ " " +:+ current_dir +:+ " % ")
  else ret (username +:+ "@" +:+ hostname +:+ ":" +:+ current_dir +:+ "$ ").

(** The special paths of [change_directory]: the path to go on with, or
    the value of the early [return]. *)
Definition special_path (path : string) : M W (string + bool) :=
  if path == "~" then
    let* home := ask_result (path_home H) in ret (inl home)
  else if path == "-" then
    let* s := get_self in
    let previous := path_dirname H (current_dir s) in
    if negb (previous == current_dir s) then ret (inl previous)
    else let* _ := print "Already at root directory" in ret (inr true)
  else ret (inl path).

Definition change_directory (path : string) : M W bool :=
  try_except
    (let* sp := special_path path in
     match sp with
     | inr b => ret b
     | inl path =>
         let* path :=
           (if Py.startswith "~" path then ask (path_expanduser H path)
            else ret path) in
         let* path :=
           (if negb (path_isabs H path) then
              let* s := get_self in ret (path_join H (current_dir s) path)
            else ret path) in
         let path := path_normpath H path in
         let* ex := ask (path_exists H path) in
         let* isd := ask (path_isdir H path) in
         if ex && isd then
           let* _ := act (os_chdir H path) in
           let* cwd := ask_result (os_getcwd H) in
           let* s := get_self in
           let* _ := put_self (set_current_dir cwd s) in
           ret true
         else
           let* _ := print ("Directory not found: " +:+ path) in
           ret false
     end)
    (fun e =>
       let* _ := print ("Error changing directory: " +:+ e) in ret false).

(** The external command of [execute_command] (its last [try] block). *)
Definition external_command (command : string) : M W bool :=
  try_except
    (let* s := get_self in
     let* streams := POPEN H command (current_dir s) in
     let '(stdout, stderr) := streams in
     let* _ := (if negb (stdout == "") then print (Py.strip stdout)
                else ret tt) in
     let* _ := (if negb (stderr == "") then print_err (Py.strip stderr)
                else ret tt) in
     ret true)
    (fun e =>
       let* _ := print ("Error executing command: " +:+ e) in ret true).

(** [for x in l: body x] *)
Fixpoint for_each {A} (l : list A) (body : A -> M W unit) : M W unit :=
  match l with
  | [] => ret tt
  | x :: l' => let* _ := body x in for_each l' body
  end.

(** The loop of [run], for a body that says whether the loop goes on:
    at most [fuel] passes. *)
Fixpoint while_true (fuel : nat) (body : M W status) : M W status :=
  match fuel with
  | O => ret Running
  | S n =>
      let* s := body in
      match s with
      | Terminated => ret Terminated
      | Running => while_true n body
      end
  end.

(** The object after [__init__], given its alias table; [os.getcwd()] may
    raise. *)
Definition init (load_aliases : string -> gmap string string) (w : W)
  : result Session :=
  match os_getcwd H w with
  | Ok cwd =>
      let system := Py.lower (platform_system H) in
      Ok {| current_dir := cwd;
            system := system;
            history := [];
            history_index := (-1)%Z;
            aliases := load_aliases system |}
  | Raise e => Raise e
  end.
End Shared.

(** ** Revision 1.0.0 *)

Module V100.

Definition load_aliases (system : string) : gmap string string :=
  if system == "windows" then
    (list_to_map
       [("ls", "dir"); ("rm", "del"); ("cp", "copy"); ("mv", "move");
        ("cat", "type"); ("pwd", "cd")] : gmap string string)
      ∪ base_aliases
  else base_aliases.

Definition help_text : string := "
        Simple Cross-Platform Terminal
        ------------------------------
        
        Basic Commands:
          cd [directory]  - Change directory (use ~ for home, .. for parent)
          ls / dir       - List directory contents
          pwd            - Show current directory
          clear / cls    - Clear screen
          history        - Show command history
          exit / quit    - Exit terminal
        
        File Operations:
          cat [file]     - Show file content (type on Windows)
          cp [src] [dst] - Copy files (copy on Windows)
          mv [src] [dst] - Move files (move on Windows)
          rm [file]      - Remove files (del on Windows)
          mkdir [dir]    - Create directory
          rmdir [dir]    - Remove directory
        
        System Info:
          python --version  - Python version
          pip list         - Installed packages
          ver / systeminfo - System info (Windows)
          uname -a         - System info (Unix)
        
        Aliases:
          ll  - ls -la / dir with details
          la  - ls -a  / show hidden files
          ..  - cd ..
          ... - cd ../..
        ".

Section Methods.
Context {W : Type} (H : Host W).

Definition list_directory (command : string) : M W unit :=
  try_except
    (let* s := get_self in
     if system s == "windows" then
       SYSTEM H ("dir " +:+
                 (if Py.startswith "dir " (Py.lower command)
                  then Py.drop 3 command else ""))
     else
       SYSTEM H ("ls " +:+
                 (if Py.startswith "ls " (Py.lower command)
                  then Py.drop 3 command else "")))
    (fun e => print ("Error listing directory: " +:+ e)).

Definition show_help : M W unit := print help_text.

Definition show_history : M W unit :=
  let* _ := print "Command History:" in
  let* s := get_self in
  for_each (Py.enumerate (Py.last_n 10 (history s)) 1)
    (fun '(i, cmd) =>
       print ("  " +:+ Py.str_of_nat i +:+ ": " +:+ cmd)).

Definition execute_command (command : string) : M W bool :=
  if Py.strip command == "" then ret true
  else
    let* s := get_self in
    let command := expand_aliases (aliases s) command in
    let cmd_lower := Py.lower command in
    if Py.startswith "cd " cmd_lower then
      change_directory H (Py.strip (Py.drop 3 command))
    else if cmd_lower == "cd" then
      let* home := ask_result (path_home H) in change_directory H home
    else if isin cmd_lower ["exit"; "quit"] then
      let* _ := print "Goodbye!" in ret false
    else if isin cmd_lower ["clear"; "cls"] then
      let* _ := clear_screen H in ret true
    else if cmd_lower == "pwd" then
      let* s := get_self in
      let* _ := print (current_dir s) in ret true
    else if isin cmd_lower ["ls"; "dir"] then
      let* _ := list_directory command in ret true
    else if cmd_lower == "history" then
      let* _ := show_history in ret true
    else if cmd_lower == "help" then
      let* _ := show_help in ret true
    else external_command H command.

(** One pass through the body of [while True] in [run]. *)
Definition loop_body : M W status :=
  try_except
    (let* prompt := get_prompt H in
     let* i := INPUT prompt in
     match i with
     | Line raw =>
         let command := Py.strip raw in
         if negb (command == "") then
           let* s := get_self in
           let* _ := put_self (history_append command s) in
           let* continue := execute_command command in
           if continue then ret Running else ret Terminated
         else ret Running
     | KeyboardInterrupt =>
         let* _ := print (Py.nl +:+ "Use 'exit' to quit the terminal") in
         ret Running
     | EOFError =>
         let* _ := print (Py.nl +:+ "Goodbye!") in ret Terminated
     | InputFailure msg => raise msg
     end)
    (fun e => let* _ := print ("Error: " +:+ e) in ret Running).

Definition banner : M W unit :=
  let* _ := print (Py.times "=" 50) in
  let* _ := print "Simple Cross-Platform Terminal" in
  let* _ := print ("Running on: " +:+ platform_system H +:+ " "
                   +:+ platform_release H) in
  let* _ := print "Type 'help' for available commands" in
  let* _ := print "Type 'exit' or 'quit' to exit" in
  print (Py.times "=" 50).

Definition run (fuel : nat) : M W status :=
  let* _ := banner in while_true fuel loop_body.
End Methods.

End V100.

(** ** Revision 1.0.1 *)

Module V101.

Definition load_aliases (system : string) : gmap string string :=
  if system == "windows" then
    (list_to_map
       [("ls", "dir"); ("rm", "del"); ("cp", "copy"); ("mv", "move");
        ("cat", "type"); ("pwd", "cd"); ("mkdir -p", "mkdir")]
      : gmap string string)
      ∪ base_aliases
  else base_aliases.

Section Methods.
Context {W : Type} (H : Host W).

Definition mkdir (path : string) : M W unit :=
  try_except
    (let* home := ask_result (path_home H) in
     let full_path := Py.replace "~"%char home path in
     let* _ := act (os_makedirs H full_path) in
     print ("Directory created: " +:+ full_path))
    (fun e => print ("Error creating directory: " +:+ e)).

Definition execute_command (command : string) : M W bool :=
  if Py.strip command == "" then ret true
  else
    let* s := get_self in
    let command := expand_aliases (aliases s) command in
    let cmd_lower := Py.lower command in
    if Py.startswith "cd " cmd_lower then
      change_directory H (Py.strip (Py.drop 3 command))
    else if cmd_lower == "cd" then
      let* home := ask_result (path_home H) in change_directory H home
    else if isin cmd_lower ["exit"; "quit"] then
      let* _ := print "Goodbye!" in ret false
    else if isin cmd_lower ["clear"; "cls"] then
      let* _ := clear_screen H in ret true
    else if cmd_lower == "pwd" then
      let* s := get_self in
      let* _ := print (current_dir s) in ret true
    else if Py.startswith "mkdir" cmd_lower then
      let* _ :=
        (match Py.split1 command with
         | _ :: p1 :: _ => mkdir p1
         | _ => print "mkdir: missing path"
         end) in
      ret true
    else if isin cmd_lower ["ls"; "dir"] then
      let* _ := SYSTEM H command in ret true
    else external_command H command.

(** One pass through the body of [while True] in [run]. *)
Definition loop_body : M W status :=
  try_except
    (let* prompt := get_prompt H in
     let* i := INPUT prompt in
     match i with
     | Line raw =>
         let command := Py.strip raw in
         if negb (command == "") then
           let* s := get_self in
           let* _ := put_self (history_append command s) in
           let* continue := execute_command command in
           if continue then ret Running else ret Terminated
         else ret Running
     | KeyboardInterrupt =>
         let* _ := print (Py.nl +:+ "Use 'exit' to quit") in ret Running
     | EOFError =>
         let* _ := print (Py.nl +:+ "Goodbye!") in ret Terminated
     | InputFailure msg => raise msg
     end)
    (fun e => let* _ := print ("Error: " +:+ e) in ret Running).

Definition banner : M W unit :=
  let* _ := print (Py.times "=" 50) in
  let* _ := print "Simple Cross-Platform Terminal" in
  let* _ := print ("Running on: " +:+ platform_system H +:+ " "
                   +:+ platform_release H) in
  let* _ := print "Type 'help' for commands, 'exit' to quit" in
  print (Py.times "=" 50).

Definition run (fuel : nat) : M W status :=
  let* _ := banner in while_true fuel loop_body.
End Methods.

End V101.

(** ** The minimal terminal of revision 1.0.0

    [MinimalTerminal] has the attributes [current_dir] and [system]; it is
    held in a [Session], whose other fields it neither reads nor writes.
    Its loop catches [KeyboardInterrupt] and [EOFError] only: any other
    exception leaves [run]. *)

Module Minimal.

Section Methods.
Context {W : Type} (H : Host W).

(** [subprocess.run(cmd, shell=True, cwd=cwd, text=True,
    capture_output=True)]: the decoded streams, or the exception raised. *)
Variable subprocess_run :
  string -> string -> W -> result (string * string) * W.

Definition RUN (cmd cwd : string) : M W (string * string) :=
  fun st =>
    let '(r, w) := subprocess_run cmd cwd (world st) in
    (r, set_world w st, [Spawn cmd cwd]).

(** One pass through the body of [while True] in [run]. *)
Definition loop_body : M W status :=
  let* s := get_self in
  let prompt := path_basename H (current_dir s) +:+ "> " in
  let* i := INPUT prompt in
  match i with
  | Line raw =>
      let command := Py.strip raw in
      if isin (Py.lower command) ["exit"; "quit"] then
        let* _ := print "Goodbye!" in ret Terminated
      else if Py.lower command == "cd" then
        let* home := ask_result (path_home H) in
        let* s := get_self in
        let* _ := put_self (set_current_dir home s) in
        let* s := get_self in
        let* _ := act (os_chdir H (current_dir s)) in
        ret Running
      else if Py.startswith "cd " (Py.lower command) then
        let new_dir := Py.strip (Py.drop 3 command) in
        let* new_dir :=
          (if new_dir == "~" then ask_result (path_home H)
           else ret new_dir) in
        let* _ :=
          try_except
            (let* _ := act (os_chdir H new_dir) in
             let* cwd := ask_result (os_getcwd H) in
             let* s := get_self in
             put_self (set_current_dir cwd s))
            (fun _ => print ("Directory not found: " +:+ new_dir)) in
        ret Running
      else if negb (command == "") then
        let* _ :=
          try_except
            (let* s := get_self in
             let* streams := RUN command (current_dir s) in
             let '(stdout, stderr) := streams in
             let* _ := (if negb (stdout == "") then print stdout
                        else ret tt) in
             if negb (stderr == "") then print stderr else ret tt)
            (fun e => print ("Error: " +:+ e)) in
        ret Running
      else ret Running
  | KeyboardInterrupt =>
      let* _ := print (Py.nl +:+ "Use 'exit' to quit") in ret Running
  | EOFError => ret Terminated
  | InputFailure msg => raise msg
  end.

Definition run (fuel : nat) : M W status :=
  let* _ := print "Minimal Terminal - Type commands or 'exit' to quit" in
  while_true fuel loop_body.

(** The object after [__init__]; [os.getcwd()] may raise. *)
Definition init (w : W) : result Session :=
  match os_getcwd H w with
  | Ok cwd =>
      Ok {| current_dir := cwd;
            system := Py.lower (platform_system H);
            history := [];
            history_index := (-1)%Z;
            aliases := ∅ |}
  | Raise e => Raise e
  end.
End Methods.

End Minimal.

(** ** A POSIX host

An instance of [Host] to run the terminal on: [posixpath] on strings, a
file system given by its directories and regular files (absolute
normalised paths, no symbolic links), and a shell that finds no
program. *)

Module Posix.

(** [s.split(c)] for a separator of one character. *)
Fixpoint split_on (c : ascii) (s : string) : list string :=
  match s with
  | EmptyString => [EmptyString]
  | String x s' =>
      match split_on c s' with
      | h :: t => if Ascii.eqb x c then EmptyString :: h :: t
                  else String x h :: t
      | [] => [EmptyString]
      end
  end.

(** [s.rstrip('/')] *)
Fixpoint rstrip_slash (s : string) : string :=
  match s with
  | EmptyString => EmptyString
  | String c s' =>
      match rstrip_slash s' with
      | EmptyString =>
          if Ascii.eqb c "/" then EmptyString else String c EmptyString
      | r => String c r
      end
  end.

Definition endswith_slash (s : string) : bool :=
  match last (split_on "/" s) with
  | Some EmptyString => negb (s == "")
  | _ => false
  end.

Definition isabs (p : string) : bool := Py.startswith "/" p.

Definition join (a b : string) : string :=
  if Py.startswith "/" b then b
  else if (a == "") || endswith_slash a then a +:+ b
  else a +:+ "/" +:+ b.

(** One component in the loop of [normpath]; [new_comps] is kept in
    reverse. *)
Definition norm_step (initial_slashes : nat) (new_comps : list string)
  (comp : string) : list string :=
  if (comp == "") || (comp == ".") then new_comps
  else if negb (comp == "..")
          || (Nat.eqb initial_slashes 0
              && match new_comps with [] => true | _ => false end)
          || match new_comps with top :: _ => top == ".." | [] => false end
  then comp :: new_comps
  else match new_comps with _ :: rest => rest | [] => [] end.

Definition normpath (path : string) : string :=
  if path == "" then "."
  else
    let initial_slashes :=
      if Py.startswith "/" path then
        if Py.startswith "//" path && negb (Py.startswith "///" path)
        then 2 else 1
      else 0 in
    let comps :=
      fold_left (norm_step initial_slashes) (split_on "/" path) [] in
    let path := Py.times "/" initial_slashes +:+ Py.join "/" (rev comps) in
    if path == "" then "." else path.

Definition dirname (p : string) : string :=
  match split_on "/" p with
  | [] | [_] => ""
  | comps =>
      let head := Py.join "/" (removelast comps) +:+ "/" in
      if forallb (fun c => c == "") (removelast comps) then head
      else rstrip_slash head
  end.

Definition basename (p : string) : string :=
  match last (split_on "/" p) with
  | Some b => b
  | None => ""
  end.

Record machine : Type := {
  cwd : string;            (* working directory of the process *)
  dirs : list string;
  files : list string;
  HOME : string;
  login : string
}.

Definition set_cwd (d : string) (w : machine) : machine :=
  {| cwd := d; dirs := dirs w; files := files w; HOME := HOME w;
     login := login w |}.
Definition add_dir (d : string) (w : machine) : machine :=
  {| cwd := cwd w; dirs := dirs w ++ [d]; files := files w;
     HOME := HOME w; login := login w |}.

(** The absolute normalised path [p] names; two leading slashes, which
    [normpath] keeps, name the root like one. *)
Definition abspath (p : string) (w : machine) : string :=
  let q := normpath (join (cwd w) p) in
  if Py.startswith "//" q then Py.drop 1 q else q.

Definition isdir (p : string) (w : machine) : bool :=
  isin (abspath p w) (dirs w).
Definition exists_ (p : string) (w : machine) : bool :=
  isdir p w || isin (abspath p w) (files w).

Definition chdir (p : string) (w : machine)   : result machine :=
  if isdir p w then Ok (set_cwd (abspath p w) w)
  else Raise ("[Errno 2] No such file or directory: '" +:+ p +:+ "'").

(** The path of every ancestor of an absolute normalised path, and the
    path itself, outermost first. *)
Fixpoint prefixes (acc : string) (comps : list string) : list string :=
  match comps with
  | [] => []
  | c :: r => let a := acc +:+ "/" +:+ c in a :: prefixes a r
  end.
Definition ancestors (abs : string) : list string :=
  prefixes "" (filter (fun c => negb (c == "")) (split_on "/" abs)).

Fixpoint make_all (p : string) (l : list string) (w : machine)
    : result machine :=
  match l with
  | [] => Ok w
  | a :: r =>
      if isin a (files w) then
        Raise (match r with
               | [] => "[Errno 17] File exists: '" +:+ p +:+ "'"
               | _ => "[Errno 20] Not a directory: '" +:+ p +:+ "'"
               end)
      else make_all p r (if isin a (dirs w) then w else add_dir a w)
  end.

(** [os.makedirs(p, exist_ok=True)].  The message of a failure names the
    path as given; [os.makedirs] names the component at which it stopped,
    which is that path when the regular file is the parent of the last
    component. *)
Definition makedirs (p : string) (w : machine)   : result machine :=
  make_all p (ancestors (abspath p w)) w.

Definition expanduser (p : string) (w : machine) : string :=
  if negb (Py.startswith "~" p) then p
  else
    match split_on "/" p with
    | "~" :: _ =>
        let r := rstrip_slash (HOME w) +:+ Py.drop 1 p in
        if r == "" then "/" else r
    | _ => p
    end.

(** The shell finds no program: nothing on standard output, its complaint
    on standard error.  A working directory that is missing fails the
    launch. *)
Definition popen (cmd cwd : string) (w : machine)
  : result (string * string) * machine :=
  if isdir cwd w then
    (Ok ("", "/bin/sh: 1: " +:+ fst (Py.span (Py.lstrip cmd))
             +:+ ": not found" +:+ Py.nl), w)
  else (Raise ("[Errno 2] No such file or directory: '" +:+ cwd +:+ "'"), w).

Definition host : Host machine := {|
  platform_system := "Linux";
  platform_release := "6.1.0";
  platform_node := "box";
  os_getlogin := fun w => Ok (login w);
  os_getcwd := fun w => Ok (cwd w);
  os_chdir := chdir;
  os_makedirs := makedirs;
  os_system := fun _ w => w;
  popen_communicate := popen;
  path_home := fun w => Ok (HOME w);
  path_exists := exists_;
  path_isdir := isdir;
  path_expanduser := expanduser;
  path_isabs := isabs;
  path_join := join;
  path_normpath := normpath;
  path_dirname := dirname;
  path_basename := basename
|}.

(** A small file system, with the process in [/work]. *)
Definition work : machine := {|
  cwd := "/work";
  dirs := ["/"; "/home"; "/home/user"; "/work"];
  files := ["/work/notes.txt"];
  HOME := "/home/user";
  login := "user"
|}.

(** The same file system, with the process at the root. *)
Definition at_root : machine := set_cwd "/" work.

(** The terminal [__init__] constructs on this host in world [w] (see
    [posix_init]). *)
Definition session (load_aliases : string -> gmap string string)
  (w : machine) : Session :=
  {| current_dir := cwd w;
     system := "linux";
     history := [];
     history_index := (-1)%Z;
     aliases := load_aliases "linux" |}.

(** A terminal just constructed in world [w], with input [i] to come. *)
Definition boot (load_aliases : string -> gmap string string) (w : machine)
  (i : list input_event) : St machine :=
  {| world := w; self := session load_aliases w; stdin := i |}.

(** The minimal terminal [__init__] constructs on this host in world [w]
    (see [posix_minimal_init]). *)
Definition minimal_session (w : machine) : Session :=
  {| current_dir := cwd w;
     system := "linux";
     history := [];
     history_index := (-1)%Z;
     aliases := ∅ |}.

End Posix.

(** ** A POSIX host without login name and home directory

    The host of a process without controlling terminal and without [HOME]:
    [os.getlogin()] and [Path.home()] raise; everything else is as in
    [Posix.host]. *)
Definition headless : Host Posix.machine := {|
  platform_system := "Linux";
  platform_release := "6.1.0";
  platform_node := "box";
  os_getlogin := fun _ => Raise "[Errno 25] Inappropriate ioctl for device";
  os_getcwd := fun w => Ok (Posix.cwd w);
  os_chdir := Posix.chdir;
  os_makedirs := Posix.makedirs;
  os_system := fun _ w => w;
  popen_communicate := Posix.popen;
  path_home := fun _ => Raise "Could not determine home directory.";
  path_exists := Posix.exists_;
  path_isdir := Posix.isdir;
  path_expanduser := Posix.expanduser;
  path_isabs := Posix.isabs;
  path_join := Posix.join;
  path_normpath := Posix.normpath;
  path_dirname := Posix.dirname;
  path_basename := Posix.basename
|}.

(** ** A POSIX host on which an entered directory vanishes

    Another process removes [/work/tmp] as soon as the terminal has
    entered it: [os.chdir] succeeds, and [os.getcwd()] then raises
    [FileNotFoundError], as it does for a working directory that no longer
    exists. Everything else is as in [Posix.host]. *)
Definition vanish (w : Posix.machine) : Posix.machine :=
  if Posix.cwd w == "/work/tmp" then
    {| Posix.cwd := Posix.cwd w;
       Posix.dirs :=
         List.filter (fun d => negb (d == "/work/tmp")) (Posix.dirs w);
       Posix.files := Posix.files w;
       Posix.HOME := Posix.HOME w;
       Posix.login := Posix.login w |}
  else w.

Definition vanishing : Host Posix.machine := {|
  platform_system := "Linux";
  platform_release := "6.1.0";
  platform_node := "box";
  os_getlogin := fun w => Ok (Posix.login w);
  os_getcwd := fun w =>
    if isin (Posix.cwd w) (Posix.dirs w) then Ok (Posix.cwd w)
    else Raise "[Errno 2] No such file or directory";
  os_chdir := fun p w =>
    match Posix.chdir p w with
    | Ok w' => Ok (vanish w')
    | Raise e => Raise e
    end;
  os_makedirs := Posix.makedirs;
  os_system := fun _ w => w;
  popen_communicate := Posix.popen;
  path_home := fun w => Ok (Posix.HOME w);
  path_exists := Posix.exists_;
  path_isdir := Posix.isdir;
  path_expanduser := Posix.expanduser;
  path_isabs := Posix.isabs;
  path_join := Posix.join;
  path_normpath := Posix.normpath;
  path_dirname := Posix.dirname;
  path_basename := Posix.basename
|}.

(** The file system of [Posix.work] with the directory [/work/tmp]. *)
Definition with_tmp : Posix.machine := Posix.add_dir "/work/tmp" Posix.work.

(** A file system whose home directory is missing. *)
Definition homeless : Posix.machine := {|
  Posix.cwd := "/work";
  Posix.dirs := ["/"; "/work"];
  Posix.files := [];
  Posix.HOME := "/home/user";
  Posix.login := "user"
|}.

(** ** Both revisions, and the vocabulary of the properties *)

Inductive revision : Type := R100 | R101.

Definition load_aliases (v : revision) : string -> gmap string string :=
  match v with
  | R100 => V100.load_aliases
  | R101 => V101.load_aliases
  end.

Definition execute_command {W} (v : revision) (H : Host W)
  : string -> M W bool :=
  match v with
  | R100 => V100.execute_command H
  | R101 => V101.execute_command H
  end.

Definition loop_body {W} (v : revision) (H : Host W) : M W status :=
  match v with
  | R100 => V100.loop_body H
  | R101 => V101.loop_body H
  end.

Definition run {W} (v : revision) (H : Host W) (fuel : nat) : M W status :=
  match v with
  | R100 => V100.run H fuel
  | R101 => V101.run H fuel
  end.

(** No character of [s] is white space. *)
Fixpoint nospace (s : string) : bool :=
  match s with
  | EmptyString => true
  | String c s' => negb (Py.isspace c) && nospace s'
  end.

(** Every character of [s] is white space. *)
Fixpoint blank (s : string) : bool :=
  match s with
  | EmptyString => true
  | String c s' => Py.isspace c && blank s'
  end.

(** A word: not empty, no white space. *)
Definition is_token (t : string) : Prop := t <> "" /\ nospace t = true.

(** A run of white space: not empty, white space only. *)
Definition is_gap (g : string) : Prop := g <> "" /\ blank g = true.

(** Arguments, each after the white space that comes before it. *)
Fixpoint weave (args : list (string * string)) : string :=
  match args with
  | [] => ""
  | (gap, a) :: rest => gap +:+ a +:+ weave rest
  end.

(** Words with one space between each two of them. *)
Definition single_spaced (words : list string) : string :=
  match words with
  | [] => ""
  | w :: rest => w +:+ weave (map (fun a => (" ", a)) rest)
  end.

(** The last character of [s] is white space. *)
Fixpoint ends_with_space (s : string) : bool :=
  match s with
  | EmptyString => false
  | String c EmptyString => Py.isspace c
  | String _ s' => ends_with_space s'
  end.

(** The session's directory is the working directory of the process. *)
Definition consistent {W} (H : Host W) (st : St W) : Prop :=
  os_getcwd H (world st) = Ok (current_dir (self st)).

(** The lines a history of commands is displayed as. *)
Definition history_line (i : nat) (cmd : string) : event :=
  Stdout ("  " +:+ Py.str_of_nat i +:+ ": " +:+ cmd).

Definition is_spawn (e : event) : bool :=
  match e with
  | Spawn _ _ => true
  | _ => false
  end.

Definition is_prompt (e : event) : bool :=
  match e with
  | Prompt _ => true
  | _ => false
  end.

Definition is_stdout (e : event) : bool :=
  match e with
  | Stdout _ => true
  | _ => false
  end.

(** [m] performed [n] times in a row: the value of each call. *)
Fixpoint repeatedly {W A} (n : nat) (m : M W A) : M W (list A) :=
  match n with
  | O => ret []
  | S k => let* a := m in let* l := repeatedly k m in ret (a :: l)
  end.

(** [s] is empty or starts with white space. *)
Definition starts_with_space (s : string) : bool :=
  match s with
  | EmptyString => true
  | String c _ => Py.isspace c
  end.

(** [m] launches no external process. *)
Definition no_spawn {W A} (m : M W A) : Prop :=
  forall st, forallb (fun e => negb (is_spawn e)) (snd (m st)) = true.

(** The state in which a line that was read is executed: the line is taken
    from the input and appended to the history. *)
Definition entered {W} (command : string) (rest : list input_event)
  (st : St W) : St W :=
  {| world := world st;
     self := history_append command (self st);
     stdin := rest |}.

(** What the loop does with the value of [execute_command]. *)
Definition verdict (r : result bool) : status :=
  match r with
  | Ok false => Terminated
  | _ => Running
  end.

Definition report (r : result bool) : list event :=
  match r with
  | Raise e => [Stdout ("Error: " +:+ e)]
  | Ok _ => []
  end.

(** What the mkdir branch of [execute_command] does with the line. *)
Definition mkdir_branch {W} (H : Host W) (command : string) : M W bool :=
  let* _ := match Py.split1 command with
            | _ :: p1 :: _ => V101.mkdir H p1
            | _ => print "mkdir: missing path"
            end in
  ret true.

(** [m] leaves every state related by [R] to the state it started in. *)
Definition keeps {W A} (R : St W -> St W -> Prop) (m : M W A) : Prop :=
  forall st, R st (snd (fst (m st))).

(** The object and the pending input are the same, and the world moved
    along [G]. *)
Definition world_step {W} (G : W -> W -> Prop) (st st' : St W) : Prop :=
  self st' = self st /\ stdin st' = stdin st /\ G (world st) (world st').

(** Every attribute of the object but [current_dir] is the same, and so is
    the pending input. *)
Definition same_attributes {W} (st st' : St W) : Prop :=
  stdin st' = stdin st
  /\ system (self st') = system (self st)
  /\ history (self st') = history (self st)
  /\ history_index (self st') = history_index (self st)
  /\ aliases (self st') = aliases (self st).

(** [m] raises no exception. *)
Definition total {W A} (m : M W A) : Prop :=
  forall st, exists a, fst (fst (m st)) = Ok a.

(** [m] returns [True]. *)
Definition yields_true {W} (m : M W bool) : Prop :=
  forall st, fst (fst (m st)) = Ok true.

(** The lines of an input that enter the history: those that are not blank,
    trimmed. *)
Fixpoint entered_lines (input : list input_event) : list string :=
  match input with
  | [] => []
  | Line raw :: rest =>
      if Py.strip raw == "" then entered_lines rest
      else Py.strip raw :: entered_lines rest
  | _ :: rest => entered_lines rest
  end.

(** The state after one input event was taken. *)
Definition advance {W} (rest : list input_event) (st : St W) : St W :=
  {| world := world st; self := self st; stdin := rest |}.

(** The text of the prompt, for a user name. *)
Definition prompt_text {W} (H : Host W) (username : string) (s : Session)
  : string :=
  let hostname := platform_node H in
  let current_dir := path_basename H (current_dir s) in
  if system s == "windows" then "PS " +:+ current_dir +:+ "> "
  else if system s == "darwin" then
    username +:+ "@" +:+ hostname +:+ " " +:+ current_dir +:+ " % "
  else username +:+ "@" +:+ hostname +:+ ":" +:+ current_dir +:+ "$ ".

(** The reminder printed on an interrupt. *)
Definition interrupt_notice (v : revision) : string :=
  match v with
  | R100 => Py.nl +:+ "Use 'exit' to quit the terminal"
  | R101 => Py.nl +:+ "Use 'exit' to quit"
  end.

(** The keys of both alias tables, in lower case. *)
Definition lowered_keys : list string :=
  ["ls"; "rm"; "cp"; "mv"; "cat"; "pwd"; "mkdir -p"; "ll"; "la"; "cls";
   "md"; "rd"; ".."; "..."; "...."].

(** Proof automation for computations in [M]. *)
Ltac m_unfold :=
  unfold try_except, bind, ret, raise, ask, ask_result, act, get_self,
    put_self, print, print_err, emit, SYSTEM, POPEN, set_self, set_world in *;
  simpl in *.

(* Case analysis on a scrutinee that contains no other case analysis. *)
Ltac m_case :=
  match goal with
  | |- context [match ?x with _ => _ end] =>
      lazymatch x with
      | context [match _ with _ => _ end] => fail
      | _ => destruct x eqn:?; simpl in *
      end
  end.
Ltac m_cases := repeat m_case.

Ltac m_done :=
  repeat match goal with
    | H : (_, _, _) = (_, _, _) |- _ => inversion H; subst; clear H
    | H : (_, _) = (_, _) |- _ => inversion H; subst; clear H
    | H : Ok _ = Ok _ |- _ => inversion H; subst; clear H
    | H : inl _ = inl _ |- _ => inversion H; subst; clear H
    | H : inr _ = inr _ |- _ => inversion H; subst; clear H
    end; simpl in *; try discriminate.

(** ** Words and white space *)

Lemma app_cons (c : ascii) (s t : string) :
  String c s +:+ t = String c (s +:+ t).
Proof. reflexivity. Qed.

Lemma app_nil_l (t : string) : "" +:+ t = t.
Proof. reflexivity. Qed.

Ltac str_simpl := repeat (rewrite ?app_cons, ?app_nil_l; simpl).

Lemma append_nil_r (s : string) : s +:+ "" = s.
Proof. induction s as [|c s IH]; str_simpl; [reflexivity | now rewrite IH]. Qed.

Lemma append_assoc (a b c : string) : (a +:+ b) +:+ c = a +:+ b +:+ c.
Proof. induction a as [|x a IH]; str_simpl; [reflexivity | now rewrite IH]. Qed.

Lemma scan_word (t s : string) :
  nospace t = true ->
  Py.scan (t +:+ s) = (t +:+ fst (Py.scan s), snd (Py.scan s)).
Proof.
  induction t as [|c t IH]; str_simpl; intros Ht.
  - now destruct (Py.scan s).
  - apply andb_true_iff in Ht as [Hc Ht].
    rewrite (IH Ht). apply negb_true_iff in Hc. now rewrite Hc.
Qed.

Lemma scan_space (c : ascii) (s : string) :
  Py.isspace c = true -> Py.scan (String c s) = ("", Py.split s).
Proof.
  intros Hc. unfold Py.split. simpl. destruct (Py.scan s) as [t l].
  now rewrite Hc.
Qed.

Lemma split_space (c : ascii) (s : string) :
  Py.isspace c = true -> Py.split (String c s) = Py.split s.
Proof. intros Hc. unfold Py.split at 1. now rewrite scan_space. Qed.

Lemma split_blank (g s : string) :
  blank g = true -> Py.split (g +:+ s) = Py.split s.
Proof.
  induction g as [|c g IH]; str_simpl; intros Hg; [reflexivity|].
  apply andb_true_iff in Hg as [Hc Hg]. rewrite split_space by exact Hc.
  now apply IH.
Qed.

Lemma split_only_blank (g : string) : blank g = true -> Py.split g = [].
Proof.
  intros Hg. rewrite <- (append_nil_r g). now rewrite split_blank.
Qed.

Lemma push_token (t : string) (l : list string) :
  t <> "" -> Py.push t l = t :: l.
Proof. destruct t; [congruence | reflexivity]. Qed.

(** A word followed by a gap is the first word of the line. *)
Lemma split_word_gap (t g s : string) :
  is_token t -> is_gap g -> Py.split (t +:+ g +:+ s) = t :: Py.split s.
Proof.
  intros [Hne Ht] [Hg Hb]. destruct g as [|c g]; [congruence|].
  simpl in Hb. apply andb_true_iff in Hb as [Hc Hb].
  unfold Py.split at 1. rewrite scan_word by exact Ht.
  rewrite app_cons, scan_space by exact Hc. simpl.
  rewrite append_nil_r, push_token by exact Hne.
  now rewrite split_blank.
Qed.

Lemma split_word (t : string) : is_token t -> Py.split t = [t].
Proof.
  intros [Hne Ht]. rewrite <- (append_nil_r t) at 1.
  unfold Py.split. rewrite scan_word by exact Ht. simpl.
  rewrite append_nil_r. now apply push_token.
Qed.

Lemma split_weave (args : list (string * string)) (trail : string) :
  Forall (fun ga => is_gap (fst ga) /\ is_token (snd ga)) args ->
  blank trail = true ->
  Py.split (weave args +:+ trail) = map snd args.
Proof.
  intros Hargs Htrail. induction Hargs as [|[g a] args [Hg Ha] Hrest IH]; simpl.
  - now apply split_only_blank.
  - simpl in Hg, Ha. rewrite !append_assoc.
    rewrite split_blank by apply Hg.
    destruct args as [|[g' a'] args].
    + simpl. rewrite app_nil_l. destruct trail as [|c trail].
      * rewrite append_nil_r. now apply split_word.
      * change (String c trail) with (String c "" +:+ trail).
        simpl in Htrail. apply andb_true_iff in Htrail as [Hc Htrail].
        rewrite split_word_gap; [|exact Ha|split; [discriminate|]].
        -- now rewrite split_only_blank.
        -- simpl. now rewrite Hc.
    + simpl in IH |- *. rewrite !append_assoc in IH |- *.
      inversion_clear Hrest as [|? ? [Hg' _] _]. simpl in Hg'.
      rewrite split_word_gap by assumption.
      f_equal. rewrite <- IH. symmetry. apply split_blank, Hg'.
Qed.

Lemma join_cons (sep x : string) (l : list string) :
  l <> [] -> Py.join sep (x :: l) = x +:+ sep +:+ Py.join sep l.
Proof. destruct l; [congruence | reflexivity]. Qed.

Lemma space_gap : is_gap " ".
Proof. split; [discriminate | reflexivity]. Qed.

(** Words joined by single spaces are split into the same words. *)
Lemma split_join (toks : list string) :
  Forall is_token toks -> Py.split (Py.join " " toks) = toks.
Proof.
  induction 1 as [|t toks Ht Htoks IH]; [reflexivity|].
  destruct toks as [|u toks].
  - simpl. now apply split_word.
  - rewrite join_cons by discriminate.
    rewrite split_word_gap by (exact Ht || exact space_gap).
    now rewrite IH.
Qed.

Lemma split_word_then (t s : string) :
  is_token t -> starts_with_space s = true ->
  Py.split (t +:+ s) = t :: Py.split s.
Proof.
  intros Ht Hs. destruct s as [|c s].
  - rewrite append_nil_r. now apply split_word.
  - simpl in Hs. destruct Ht as [Hne Ht].
    unfold Py.split at 1. rewrite scan_word, scan_space by assumption.
    simpl. rewrite append_nil_r, push_token by exact Hne.
    now rewrite split_space.
Qed.

Lemma blank_starts_with_space (g s : string) :
  blank g = true -> starts_with_space s = true ->
  starts_with_space (g +:+ s) = true.
Proof.
  destruct g as [|c g]; [now rewrite app_nil_l|].
  simpl. intros Hg _. now apply andb_true_iff in Hg as [Hc _].
Qed.

Lemma weave_starts_with_space (args : list (string * string)) (trail : string) :
  Forall (fun ga => is_gap (fst ga) /\ is_token (snd ga)) args ->
  blank trail = true ->
  starts_with_space (weave args +:+ trail) = true.
Proof.
  intros Hargs Htrail. destruct Hargs as [|[g a] args [[Hne Hg] _] _].
  - simpl. rewrite app_nil_l. destruct trail as [|c trail]; [reflexivity|].
    simpl in *. now apply andb_true_iff in Htrail as [Hc _].
  - simpl in *. destruct g as [|c g]; [congruence|].
    rewrite !app_cons. simpl in *. now apply andb_true_iff in Hg as [Hc _].
Qed.

(** [' '.join] puts one space between each two words. *)
Lemma join_single_spaced (words : list string) :
  Py.join " " words = single_spaced words.
Proof.
  destruct words as [|w rest]; [reflexivity|].
  revert w. induction rest as [|a rest IH]; intros w.
  - simpl. now rewrite append_nil_r.
  - rewrite join_cons by discriminate. rewrite (IH a). reflexivity.
Qed.

(** ** Alias expansion *)

Lemma expand_aliases_hit (al : gmap string string) (line p0 v : string)
  (rest : list string) :
  Py.split line = p0 :: rest -> al !! p0 = Some v ->
  expand_aliases al line = v +:+ " " +:+ Py.join " " rest.
Proof. intros Hs Hl. unfold expand_aliases. now rewrite Hs, Hl. Qed.

Lemma expand_aliases_miss (al : gmap string string) (line : string) :
  match Py.split line with
  | p0 :: _ => al !! p0 = None
  | [] => True
  end ->
  expand_aliases al line = line.
Proof.
  unfold expand_aliases. destruct (Py.split line) as [|p0 rest]; [reflexivity|].
  now intros ->.
Qed.

(** C9. When the first word of a line is a key of the alias table, the
    expansion is the mapped text, one space, and the remaining words with
    one space between each two of them: white space before the key and
    after the last word is dropped, and every run of white space between
    the arguments becomes a single space. A key alone expands to the mapped
    text followed by one space, so [cls] expands to [clear ] with a
    trailing space, in both revisions on every platform. *)
Theorem expand_aliases_rejoins (al : gmap string string)
  (t v lead trail : string) (args : list (string * string)) :
  al !! t = Some v ->
  is_token t ->
  blank lead = true ->
  blank trail = true ->
  Forall (fun ga => is_gap (fst ga) /\ is_token (snd ga)) args ->
  expand_aliases al (lead +:+ t +:+ weave args +:+ trail)
    = v +:+ " " +:+ single_spaced (map snd args)
  /\ expand_aliases al t = v +:+ " "
  /\ (forall rev sys, expand_aliases (load_aliases rev sys) "cls" = "clear ").
Proof.
  intros Hl Ht Hlead Htrail Hargs. repeat split.
  - rewrite <- join_single_spaced.
    apply expand_aliases_hit with (p0 := t); [|exact Hl].
    rewrite split_blank by exact Hlead.
    rewrite split_word_then; [|exact Ht|now apply weave_starts_with_space].
    f_equal. now apply split_weave.
  - apply expand_aliases_hit with (p0 := t) (rest := []); [|exact Hl].
    now apply split_word.
  - intros rev sys. destruct rev; unfold load_aliases, V100.load_aliases,
      V101.load_aliases; destruct (sys == "windows"); vm_compute; reflexivity.
Qed.

Lemma expand_aliases_rejoins_witness :
  expand_aliases base_aliases "  ll   -h     /tmp " = "ls -la -h /tmp".
Proof.
  refine (proj1 (expand_aliases_rejoins base_aliases "ll" "ls -la" "  " " "
                   [("   ", "-h"); ("     ", "/tmp")] _ _ _ _ _)).
  - reflexivity.
  - split; [discriminate | reflexivity].
  - reflexivity.
  - reflexivity.
  - repeat constructor; simpl; discriminate.
Defined.

(** C3, as the code has it. For a key [t] of the alias table that is one
    word, the line [t a] expands to the mapped text, one space, and the
    words of [a] with one space between each two of them; this is the
    mapped text, one space and [a] itself when [a] is a sequence of words
    separated by single spaces. A line whose first word is not a key, or
    that has no word, is returned unchanged. *)
Theorem expand_aliases_normalises (al : gmap string string) (t v a : string) :
  al !! t = Some v ->
  is_token t ->
  expand_aliases al (t +:+ " " +:+ a)
    = v +:+ " " +:+ single_spaced (Py.split a)
  /\ (forall toks, Forall is_token toks -> a = single_spaced toks ->
      expand_aliases al (t +:+ " " +:+ a) = v +:+ " " +:+ a)
  /\ (forall line,
      match Py.split line with
      | p0 :: _ => al !! p0 = None
      | [] => True
      end ->
      expand_aliases al line = line).
Proof.
  intros Hl Ht.
  assert (Hexp : expand_aliases al (t +:+ " " +:+ a)
                 = v +:+ " " +:+ single_spaced (Py.split a)).
  { rewrite <- join_single_spaced.
    apply expand_aliases_hit with (p0 := t); [|exact Hl].
    apply split_word_gap; [exact Ht | exact space_gap]. }
  split; [exact Hexp|]. split.
  - intros toks Htoks ->. rewrite Hexp.
    now rewrite <- (join_single_spaced toks), split_join, join_single_spaced.
  - apply expand_aliases_miss.
Qed.

Lemma expand_aliases_normalises_witness :
  expand_aliases (load_aliases R100 "linux") "ll a  b" = "ls -la a b".
Proof.
  refine (proj1 (expand_aliases_normalises (load_aliases R100 "linux")
                   "ll" "ls -la" "a  b" _ _)).
  - vm_compute. reflexivity.
  - split; [discriminate | reflexivity].
Defined.

(** C3 as stated fails: two spaces between the arguments come back as
    one. *)
Lemma expand_aliases_not_verbatim :
  load_aliases R100 "linux" !! "ll" = Some "ls -la"
  /\ expand_aliases (load_aliases R100 "linux") ("ll" +:+ " " +:+ "a  b")
     <> "ls -la" +:+ " " +:+ "a  b".
Proof. split; [vm_compute; reflexivity | vm_compute; discriminate]. Qed.

(** ** Navigation *)

(** What [__init__] constructs on the POSIX hosts. *)
Lemma posix_init (la : string -> gmap string string) (w : Posix.machine) :
  init Posix.host la w = Ok (Posix.session la w).
Proof. reflexivity. Qed.

Lemma posix_minimal_init (w : Posix.machine) :
  Minimal.init Posix.host w = Ok (Posix.minimal_session w).
Proof. reflexivity. Qed.

(** C2. The code can leave the session's directory behind the process. On
    the host where [/work/tmp] is removed as soon as it is entered, a
    terminal constructed in [/work] holds the working directory of the
    process; navigating to [tmp] passes the existence checks, [os.chdir]
    moves the process, [os.getcwd()] raises inside the [try], and the
    handler reports the error and returns [False]. The process is then in
    [/work/tmp] while the session still holds [/work], in both revisions,
    for [change_directory] and for the command line [cd tmp]. *)
Theorem getcwd_error_leaves_stale_directory (rev : revision) :
  let st := {| world := with_tmp;
               self := Posix.session (load_aliases rev) with_tmp;
               stdin := [] |} in
  let st' := {| world := vanish (Posix.set_cwd "/work/tmp" with_tmp);
                self := Posix.session (load_aliases rev) with_tmp;
                stdin := [] |} in
  init vanishing (load_aliases rev) with_tmp = Ok (self st)
  /\ consistent vanishing st
  /\ change_directory vanishing "tmp" st
     = (Ok false, st',
        [Stdout ("Error changing directory: "
                 +:+ "[Errno 2] No such file or directory")])
  /\ execute_command rev vanishing "cd tmp" st
     = (Ok false, st',
        [Stdout ("Error changing directory: "
                 +:+ "[Errno 2] No such file or directory")])
  /\ Posix.cwd (world st') = "/work/tmp"
  /\ current_dir (self st') = "/work"
  /\ ~ consistent vanishing st'.
Proof.
  destruct rev; repeat split; try (vm_compute; reflexivity);
    intros Hc; vm_compute in Hc; discriminate.
Qed.

(** Every command line of the form [cd <path>] after alias expansion is a
    call of [change_directory], whose value is the value of
    [execute_command]. *)
Lemma execute_cd_line {W} (H : Host W) (rev : revision) (command : string)
  (st : St W) :
  Py.strip command == "" = false ->
  Py.startswith "cd "
    (Py.lower (expand_aliases (aliases (self st)) command)) = true ->
  execute_command rev H command st
  = change_directory H
      (Py.strip (Py.drop 3 (expand_aliases (aliases (self st)) command))) st.
Proof.
  intros Hne Hcd.
  destruct rev; unfold execute_command, V100.execute_command,
    V101.execute_command; rewrite Hne; unfold bind at 1, get_self at 1;
    rewrite Hcd;
    destruct (change_directory H _ st) as [[r st2] e2]; reflexivity.
Qed.

Lemma cd_not_alias (rev : revision) (sys : string) :
  load_aliases rev sys !! "cd" = None.
Proof.
  destruct rev; unfold load_aliases, V100.load_aliases, V101.load_aliases;
    destruct (sys == "windows"); vm_compute; reflexivity.
Qed.

Lemma change_directory_dash_root {W} (H : Host W) (st : St W) :
  path_dirname H (current_dir (self st)) = current_dir (self st) ->
  change_directory H "-" st
  = (Ok true, st, [Stdout "Already at root directory"]).
Proof.
  intros Hroot. unfold change_directory, special_path. m_unfold.
  rewrite Hroot, String.eqb_refl. reflexivity.
Qed.

Lemma repeatedly_fixed {W A} (m : M W A) (st : St W) (a : A) (e : event)
  (n : nat) :
  m st = (Ok a, st, [e]) ->
  repeatedly n m st = (Ok (repeat a n), st, repeat e n).
Proof.
  intros Hm. induction n as [|n IH]; [reflexivity|].
  simpl. unfold bind at 1. rewrite Hm. unfold bind at 1. rewrite IH.
  unfold ret. simpl. now rewrite app_nil_r.
Qed.

(** C8. At the file system root (the parent of the session's directory is
    that directory), [cd -] succeeds, prints the notice and changes
    nothing, as often as it is invoked: [n] invocations in a row all
    succeed, print [n] notices and leave the world and the session as they
    were. This holds for [change_directory] and for the command line
    [cd -] in both revisions. *)
Theorem cd_dash_at_root {W} (H : Host W) (rev : revision) (st : St W)
  (n : nat) :
  path_dirname H (current_dir (self st)) = current_dir (self st) ->
  aliases (self st) = load_aliases rev (system (self st)) ->
  repeatedly n (change_directory H "-") st
    = (Ok (repeat true n), st, repeat (Stdout "Already at root directory") n)
  /\ repeatedly n (execute_command rev H "cd -") st
    = (Ok (repeat true n), st, repeat (Stdout "Already at root directory") n).
Proof.
  intros Hroot Hal.
  assert (Hexp : expand_aliases (aliases (self st)) "cd -" = "cd -").
  { apply expand_aliases_miss. rewrite Hal. apply cd_not_alias. }
  split; apply repeatedly_fixed.
  - now apply change_directory_dash_root.
  - rewrite execute_cd_line; rewrite ?Hexp; try reflexivity.
    now apply change_directory_dash_root.
Qed.

Lemma cd_dash_at_root_witness :
  repeatedly 3 (execute_command R101 Posix.host "cd -")
    (Posix.boot V101.load_aliases Posix.at_root [])
  = (Ok [true; true; true], Posix.boot V101.load_aliases Posix.at_root [],
     [Stdout "Already at root directory"; Stdout "Already at root directory";
      Stdout "Already at root directory"]).
Proof.
  refine (proj2 (cd_dash_at_root Posix.host R101
                   (Posix.boot V101.load_aliases Posix.at_root []) 3 _ _)).
  - reflexivity.
  - reflexivity.
Defined.

(** ** Trimming *)

Lemma rstrip_spec (s : string) :
  ends_with_space (Py.rstrip s) = false
  /\ exists r, blank r = true /\ s = Py.rstrip s +:+ r.
Proof.
  induction s as [|c s [IHe [r [Hr IHs]]]]; simpl.
  - split; [reflexivity|]. now exists "".
  - destruct (Py.rstrip s) as [|x y] eqn:Hrs.
    + rewrite app_nil_l in IHs. subst r.
      destruct (Py.isspace c) eqn:Hc.
      * split; [reflexivity|]. exists (String c s). simpl.
        now rewrite Hc, Hr.
      * split; [simpl; exact Hc|]. now exists s.
    + split; [exact IHe|]. exists r. split; [exact Hr|].
      rewrite app_cons. now rewrite <- IHs.
Qed.

Lemma lstrip_spec (s : string) :
  exists l, blank l = true /\ s = l +:+ Py.lstrip s.
Proof.
  induction s as [|c s [l [Hl IH]]]; simpl.
  - now exists "".
  - destruct (Py.isspace c) eqn:Hc.
    + exists (String c l). simpl. rewrite Hc, Hl, app_cons.
      now rewrite <- IH.
    + now exists "".
Qed.

(** [strip] removes white space at both ends and nothing else, and what it
    returns does not end with white space. *)
Lemma strip_spec (s : string) :
  ends_with_space (Py.strip s) = false
  /\ exists l r, blank l = true /\ blank r = true
                 /\ s = l +:+ Py.strip s +:+ r.
Proof.
  unfold Py.strip. destruct (lstrip_spec s) as [l [Hl Hs]].
  destruct (rstrip_spec (Py.lstrip s)) as [He [r [Hr Hls]]].
  split; [exact He|]. exists l, r. repeat split; try assumption.
  now rewrite <- Hls.
Qed.

Lemma rstrip_nonempty (c : ascii) (s : string) :
  Py.isspace c = false -> Py.rstrip (String c s) <> "".
Proof.
  intros Hc. simpl. destruct (Py.rstrip s); [now rewrite Hc | discriminate].
Qed.

Lemma strip_nonempty (c : ascii) (s : string) :
  Py.isspace c = false -> (Py.strip (String c s) == "") = false.
Proof.
  intros Hc. apply String.eqb_neq. unfold Py.strip. simpl. rewrite Hc.
  now apply rstrip_nonempty.
Qed.

Lemma lstrip_head (s : string) :
  Py.lstrip s = ""
  \/ exists c t, Py.lstrip s = String c t /\ Py.isspace c = false.
Proof.
  induction s as [|c s IH]; simpl; [now left|].
  destruct (Py.isspace c) eqn:Hc; [exact IH | right; eauto].
Qed.

(** A trimmed string is empty or starts with a character that is not white
    space. *)
Lemma strip_head (s : string) :
  Py.strip s = ""
  \/ exists c t, Py.strip s = String c t /\ Py.isspace c = false.
Proof.
  unfold Py.strip. destruct (lstrip_head s) as [->|[c [t [-> Hc]]]];
    [now left|].
  right. simpl. destruct (Py.rstrip t); rewrite ?Hc; eauto.
Qed.

(** ** What a method emits *)

Create HintDb quiet.

Lemma no_spawn_ret {W A} (a : A) : no_spawn (@ret W A a).
Proof. intros st. reflexivity. Qed.

Lemma no_spawn_raise {W A} (msg : string) : no_spawn (@raise W A msg).
Proof. intros st. reflexivity. Qed.

Lemma no_spawn_bind {W A B} (m : M W A) (f : A -> M W B) :
  no_spawn m -> (forall a, no_spawn (f a)) -> no_spawn (bind m f).
Proof.
  intros Hm Hf st. unfold bind. specialize (Hm st).
  destruct (m st) as [[[a|msg] st1] e1]; simpl in *; [|exact Hm].
  specialize (Hf a st1). destruct (f a st1) as [[r st2] e2]. simpl in *.
  rewrite forallb_app. now rewrite Hm, Hf.
Qed.

Lemma no_spawn_try {W A} (m : M W A) (h : string -> M W A) :
  no_spawn m -> (forall e, no_spawn (h e)) -> no_spawn (try_except m h).
Proof.
  intros Hm Hh st. unfold try_except. specialize (Hm st).
  destruct (m st) as [[[a|msg] st1] e1]; simpl in *; [exact Hm|].
  specialize (Hh msg st1). destruct (h msg st1) as [[r st2] e2]. simpl in *.
  rewrite forallb_app. now rewrite Hm, Hh.
Qed.

Lemma no_spawn_print {W} (s : string) : no_spawn (@print W s).
Proof. intros st. reflexivity. Qed.

Lemma no_spawn_get_self {W} : no_spawn (@get_self W).
Proof. intros st. reflexivity. Qed.

Lemma no_spawn_put_self {W} (s : Session) : no_spawn (@put_self W s).
Proof. intros st. reflexivity. Qed.

Lemma no_spawn_ask {W A} (f : W -> A) : no_spawn (ask f).
Proof. intros st. reflexivity. Qed.

Lemma no_spawn_ask_result {W A} (f : W -> result A) : no_spawn (ask_result f).
Proof. intros st. reflexivity. Qed.

Lemma no_spawn_act {W} (f : W -> result W) : no_spawn (act f).
Proof. intros st. unfold act. now destruct (f (world st)). Qed.

Lemma no_spawn_system {W} (H : Host W) (cmd : string) :
  no_spawn (SYSTEM H cmd).
Proof. intros st. reflexivity. Qed.

Lemma no_spawn_if {W A} (b : bool) (m1 m2 : M W A) :
  no_spawn m1 -> no_spawn m2 -> no_spawn (if b then m1 else m2).
Proof. now destruct b. Qed.

Lemma no_spawn_for_each {W A} (l : list A) (body : A -> M W unit) :
  (forall a, no_spawn (body a)) -> no_spawn (for_each l body).
Proof.
  intros Hb. induction l as [|x l IH]; simpl.
  - apply no_spawn_ret.
  - apply no_spawn_bind; [apply Hb | intros _; exact IH].
Qed.

#[local] Hint Resolve no_spawn_ret no_spawn_raise no_spawn_print
  no_spawn_get_self no_spawn_put_self no_spawn_ask no_spawn_ask_result
  no_spawn_act no_spawn_system no_spawn_for_each : quiet.

Ltac quiet :=
  repeat first
    [ progress auto with quiet
    | apply no_spawn_bind; [|intros ?]
    | apply no_spawn_try; [|intros ?]
    | apply no_spawn_if
    | match goal with
      | |- no_spawn (match ?x with _ => _ end) => destruct x
      end ].

Lemma no_spawn_change_directory {W} (H : Host W) (path : string) :
  no_spawn (change_directory H path).
Proof. unfold change_directory, special_path. quiet. Qed.

Lemma no_spawn_clear_screen {W} (H : Host W) : no_spawn (clear_screen H).
Proof. unfold clear_screen. quiet. Qed.

Lemma no_spawn_list_directory {W} (H : Host W) (command : string) :
  no_spawn (V100.list_directory H command).
Proof. unfold V100.list_directory. quiet. Qed.

Lemma no_spawn_show_history {W} : no_spawn (@V100.show_history W).
Proof.
  unfold V100.show_history. quiet.
  apply no_spawn_for_each. intros [i cmd]. apply no_spawn_print.
Qed.

Lemma no_spawn_mkdir {W} (H : Host W) (path : string) :
  no_spawn (V101.mkdir H path).
Proof. unfold V101.mkdir. quiet. Qed.

Lemma no_spawn_show_help {W} : no_spawn (@V100.show_help W).
Proof. unfold V100.show_help. quiet. Qed.

#[local] Hint Resolve no_spawn_change_directory no_spawn_clear_screen
  no_spawn_list_directory no_spawn_show_history no_spawn_show_help
  no_spawn_mkdir : quiet.

(** ** Dispatch *)

Lemma bind_get_self {W A} (f : Session -> M W A) (st : St W) :
  (let* s := get_self in f s) st = f (self st) st.
Proof.
  unfold bind, get_self. now destruct (f (self st) st) as [[r st2] e2].
Qed.

Ltac quiet_branch :=
  left;
  match goal with
  | |- forallb _ (snd (?m ?st)) = true =>
      let Hq := fresh in assert (Hq : no_spawn m) by quiet; apply Hq
  end.

(** A command line is handled by a built-in, which launches no process, or
    its expansion goes to the external command. *)
Lemma execute_command_dispatch {W} (H : Host W) (rev : revision)
  (command : string) (st : St W) :
  forallb (fun e => negb (is_spawn e))
    (snd (execute_command rev H command st)) = true
  \/ execute_command rev H command st
     = external_command H (expand_aliases (aliases (self st)) command) st.
Proof.
  destruct rev; unfold execute_command, V100.execute_command,
    V101.execute_command;
    (destruct (Py.strip command == ""); [left; reflexivity|]);
    rewrite bind_get_self;
    repeat match goal with
      | |- _ \/ (if ?c then _ else _) _ = _ => destruct c; [quiet_branch|]
      end;
    right; reflexivity.
Qed.

Lemma external_command_spec {W} (H : Host W) (c : string) (st : St W) :
  external_command H c st
  = match popen_communicate H c (current_dir (self st)) (world st) with
    | (Ok (out, err), w) =>
        (Ok true, set_world w st,
         Spawn c (current_dir (self st))
           :: (if out == "" then [] else [Stdout (Py.strip out)])
           ++ (if err == "" then [] else [Stderr (Py.strip err)]))
    | (Raise e, w) =>
        (Ok true, set_world w st,
         [Spawn c (current_dir (self st));
          Stdout ("Error executing command: " +:+ e)])
    end.
Proof.
  unfold external_command. m_unfold.
  destruct (popen_communicate H c (current_dir (self st)) (world st))
    as [[[out err]|e] w]; [|reflexivity].
  destruct (out == ""), (err == ""); reflexivity.
Qed.

(** C7. When a command line is delegated (a process is spawned), the
    spawned command is the expanded line, run in the session's directory;
    once it completes, standard output, when not empty, is printed trimmed
    on the normal channel, then standard error, when not empty, is printed
    trimmed on the error channel; a launch that fails is reported as an
    execution error. In every case [execute_command] returns [True], which
    keeps the session running. Trimming removes white space at both ends
    only, so that no trailing white space is left. *)
Theorem delegated_command_relays {W} (H : Host W) (rev : revision)
  (command : string) (st st' : St W) (r : result bool) (evs : list event)
  (c d : string) :
  execute_command rev H command st = (r, st', evs) ->
  In (Spawn c d) evs ->
  r = Ok true
  /\ c = expand_aliases (aliases (self st)) command
  /\ d = current_dir (self st)
  /\ match popen_communicate H c d (world st) with
     | (Ok (out, err), w) =>
         st' = set_world w st
         /\ evs = Spawn c d
                    :: (if out == "" then [] else [Stdout (Py.strip out)])
                    ++ (if err == "" then [] else [Stderr (Py.strip err)])
     | (Raise e, w) =>
         st' = set_world w st
         /\ evs = [Spawn c d; Stdout ("Error executing command: " +:+ e)]
     end
  /\ (forall s, ends_with_space (Py.strip s) = false
                /\ exists l t, blank l = true /\ blank t = true
                               /\ s = l +:+ Py.strip s +:+ t).
Proof.
  intros Hexec Hin.
  destruct (execute_command_dispatch H rev command st) as [Hq|Hext].
  - rewrite Hexec in Hq. simpl in Hq.
    rewrite forallb_forall in Hq. specialize (Hq _ Hin). discriminate.
  - rewrite Hext, external_command_spec in Hexec.
    set (c0 := expand_aliases (aliases (self st)) command) in *.
    assert (Hcd : c = c0 /\ d = current_dir (self st)).
    { destruct (popen_communicate H c0 (current_dir (self st)) (world st))
        as [[[out err]|e] w]; inversion Hexec; subst evs;
        [destruct (out == ""), (err == "")|]; simpl in Hin;
        intuition congruence. }
    destruct Hcd as [-> ->].
    destruct (popen_communicate H c0 (current_dir (self st)) (world st))
      as [[[out err]|e] w]; inversion Hexec; subst;
      (repeat split; try reflexivity; apply strip_spec).
Qed.

Lemma delegated_command_relays_witness :
  let st := Posix.boot V100.load_aliases Posix.work [] in
  "ls -la " = expand_aliases (aliases (self st)) "ll"
  /\ "/work" = current_dir (self st)
  /\ execute_command R100 Posix.host "ll" st
     = (Ok true, st,
        [Spawn "ls -la " "/work"; Stderr "/bin/sh: 1: ls: not found"]).
Proof.
  assert (Hexec : execute_command R100 Posix.host "ll"
                    (Posix.boot V100.load_aliases Posix.work [])
                  = (Ok true, Posix.boot V100.load_aliases Posix.work [],
                     [Spawn "ls -la " "/work";
                      Stderr "/bin/sh: 1: ls: not found"]))
    by (vm_compute; reflexivity).
  destruct (delegated_command_relays Posix.host R100 "ll" _ _ _ _
              "ls -la " "/work" Hexec (or_introl eq_refl))
    as [_ [Hc [Hd _]]].
  repeat split; assumption.
Defined.

(** ** The session loop *)

(** One pass of the loop on a line that is not empty: the line is executed
    and the session ends exactly when [execute_command] returns [False]. *)
Lemma loop_body_line {W} (H : Host W) (rev : revision) (st st2 : St W)
  (p raw : string) (rest : list input_event) (r : result bool)
  (evs : list event) :
  get_prompt H st = (Ok p, st, []) ->
  stdin st = Line raw :: rest ->
  (Py.strip raw == "") = false ->
  execute_command rev H (Py.strip raw) (entered (Py.strip raw) rest st)
    = (r, st2, evs) ->
  loop_body rev H st = (Ok (verdict r), st2, Prompt p :: evs ++ report r).
Proof.
  intros Hp Hin Hne Hexec.
  destruct rev; unfold loop_body, V100.loop_body, V101.loop_body;
    unfold try_except, bind at 1; rewrite Hp;
    unfold bind at 1, INPUT; rewrite Hin, Hne; simpl;
    unfold bind at 1, get_self at 1; unfold bind at 1, put_self at 1;
    unfold bind at 1, set_self; simpl;
    unfold execute_command, entered in Hexec; rewrite Hexec;
    destruct r as [[|]|e]; simpl; rewrite ?app_nil_r; reflexivity.
Qed.

(** A navigation that fails ends the session: [execute_command] returns the
    [False] of [change_directory], and [run] leaves its loop on [False]. *)
Lemma failed_navigation_terminates {W} (H : Host W) (rev : revision)
  (st st2 : St W) (p raw : string) (rest : list input_event)
  (evs : list event) :
  let st1 := entered (Py.strip raw) rest st in
  let expanded := expand_aliases (aliases (self st1)) (Py.strip raw) in
  get_prompt H st = (Ok p, st, []) ->
  stdin st = Line raw :: rest ->
  (Py.strip raw == "") = false ->
  Py.startswith "cd " (Py.lower expanded) = true ->
  change_directory H (Py.strip (Py.drop 3 expanded)) st1
    = (Ok false, st2, evs) ->
  loop_body rev H st = (Ok Terminated, st2, Prompt p :: evs).
Proof.
  intros st1 expanded Hp Hin Hne Hcd Hnav.
  rewrite (loop_body_line H rev st st2 p raw rest (Ok false) evs);
    try assumption.
  - simpl. now rewrite app_nil_r.
  - fold st1. rewrite execute_cd_line.
    + exact Hnav.
    + destruct (strip_head raw) as [He|[c [t [He Hc]]]]; rewrite He in *;
        [discriminate | now apply strip_nonempty].
    + exact Hcd.
Qed.

(** C1. The code ends the session on a failed navigation. On the POSIX
    host, with the process in [/work] and no [/work/nosuchdir], a session
    that reads [cd nosuchdir] and then [pwd] reports the missing directory
    and terminates at once: [pwd] is never read. Both revisions. *)
Theorem failed_cd_ends_session (rev : revision) :
  let st := Posix.boot (load_aliases rev) Posix.work
              [Line "cd nosuchdir"; Line "pwd"] in
  let '(r, st', evs) := run rev Posix.host 5 st in
  r = Ok Terminated
  /\ stdin st' = [Line "pwd"]
  /\ world st' = Posix.work
  /\ current_dir (self st') = "/work"
  /\ last evs = Some (Stdout "Directory not found: /work/nosuchdir")
  /\ List.filter is_prompt evs = [Prompt "user@box:work$ "].
Proof. destruct rev; vm_compute; repeat split; reflexivity. Qed.

(** ** The first word of a line *)

Lemma isspace_lower_char (c : ascii) :
  Py.isspace (Py.lower_char c) = Py.isspace c.
Proof. destruct c as [[] [] [] [] [] [] [] []]; reflexivity. Qed.

Lemma scan_fst_nospace (s : string) : nospace (fst (Py.scan s)) = true.
Proof.
  induction s as [|c s IH]; [reflexivity|]. simpl.
  destruct (Py.scan s) as [t l]. destruct (Py.isspace c) eqn:Hc;
    [reflexivity|]. simpl in *. now rewrite Hc.
Qed.

Lemma scan_head (c : ascii) (s : string) :
  Py.isspace c = false ->
  Py.scan (String c s) = (String c (fst (Py.scan s)), snd (Py.scan s)).
Proof. intros Hc. simpl. destruct (Py.scan s). now rewrite Hc. Qed.

Lemma split_head (c : ascii) (s : string) :
  Py.isspace c = false ->
  Py.split (String c s) = String c (fst (Py.scan s)) :: snd (Py.scan s).
Proof. intros Hc. unfold Py.split. now rewrite scan_head. Qed.

(** A pattern without white space that starts the lowercased line starts
    its lowercased first word. *)
Lemma prefix_first_word (p s : string) :
  nospace p = true ->
  String.prefix p (Py.lower s) = true ->
  String.prefix p (Py.lower (fst (Py.scan s))) = true.
Proof.
  revert s. induction p as [|a p IH]; intros s Hp Hpre;
    [destruct (Py.lower (fst (Py.scan s))); reflexivity|].
  destruct s as [|c s]; [discriminate|].
  simpl in Hp, Hpre. apply andb_true_iff in Hp as [Ha Hp].
  destruct (ascii_dec a (Py.lower_char c)) as [->|]; [|discriminate].
  rewrite isspace_lower_char in Ha. apply negb_true_iff in Ha.
  rewrite scan_head by exact Ha. simpl.
  destruct (ascii_dec (Py.lower_char c) (Py.lower_char c)); [|congruence].
  now apply IH.
Qed.

(** No key of the alias table is a word that starts with [mkdir], in any
    letter case. *)
Lemma mkdir_word_not_key (rev : revision) (sys k : string) :
  nospace k = true ->
  Py.startswith "mkdir" (Py.lower k) = true ->
  load_aliases rev sys !! k = None.
Proof.
  intros Hk Hpre. destruct (load_aliases rev sys !! k) as [v|] eqn:Hl;
    [exfalso|reflexivity].
  assert (Hin : (k, v) ∈
    [("ls", "dir"); ("rm", "del"); ("cp", "copy"); ("mv", "move");
     ("cat", "type"); ("pwd", "cd"); ("mkdir -p", "mkdir");
     ("ll", "ls -la"); ("la", "ls -a"); ("cls", "clear"); ("md", "mkdir");
     ("rd", "rmdir"); ("..", "cd .."); ("...", "cd ../..");
     ("....", "cd ../../..")]).
  { destruct rev; unfold load_aliases, V100.load_aliases, V101.load_aliases,
      base_aliases in Hl; destruct (sys == "windows");
      try apply lookup_union_Some_raw in Hl as [Hl|[_ Hl]];
      apply elem_of_list_to_map_2 in Hl;
      repeat (apply elem_of_cons in Hl as [Hl|Hl];
              [inversion Hl; subst; set_solver|]);
      now apply elem_of_nil in Hl. }
  repeat (apply elem_of_cons in Hin as [Hin|Hin];
          [inversion Hin; subst; vm_compute in Hk, Hpre; congruence|]).
  now apply elem_of_nil in Hin.
Qed.

Lemma prefix_split (p s : string) :
  String.prefix p s = true -> exists r, s = p +:+ r.
Proof.
  revert s. induction p as [|a p IH]; intros s Hpre.
  - now exists s.
  - destruct s as [|b s]; [discriminate|]. simpl in Hpre.
    destruct (ascii_dec a b) as [->|]; [|discriminate].
    destruct (IH s Hpre) as [r ->]. now exists r.
Qed.

(** A line whose lowercase form starts with [mkdir] is not changed by alias
    expansion, and is not blank. *)
Lemma mkdir_line_not_expanded (rev : revision) (sys command : string) :
  Py.startswith "mkdir" (Py.lower command) = true ->
  expand_aliases (load_aliases rev sys) command = command
  /\ (Py.strip command == "") = false.
Proof.
  intros Hpre. destruct command as [|c s]; [discriminate|].
  assert (Hc : Py.isspace c = false).
  { destruct (prefix_split _ _ Hpre) as [r Hr]. simpl in Hr.
    rewrite !app_cons in Hr. injection Hr as Hm _.
    rewrite <- isspace_lower_char, Hm. reflexivity. }
  split; [|now apply strip_nonempty].
  apply expand_aliases_miss. rewrite split_head by exact Hc.
  apply mkdir_word_not_key.
  - pose proof (scan_fst_nospace (String c s)) as Hn.
    now rewrite scan_head in Hn by exact Hc.
  - pose proof (prefix_first_word "mkdir" (String c s) eq_refl Hpre) as Hp.
    now rewrite scan_head in Hp by exact Hc.
Qed.


(** ** The mkdir built-in of 1.0.1 *)

Lemma mkdir_spec {W} (H : Host W) (path : string) (st : St W) :
  V101.mkdir H path st
  = match path_home H (world st) with
    | Ok home =>
        let full_path := Py.replace "~" home path in
        match os_makedirs H full_path (world st) with
        | Ok w =>
            (Ok tt, set_world w st,
             [Stdout ("Directory created: " +:+ full_path)])
        | Raise e =>
            (Ok tt, st, [Stdout ("Error creating directory: " +:+ e)])
        end
    | Raise e => (Ok tt, st, [Stdout ("Error creating directory: " +:+ e)])
    end.
Proof.
  unfold V101.mkdir. m_unfold.
  destruct (path_home H (world st)) as [home|e]; [|reflexivity].
  destruct (os_makedirs H _ (world st)) as [w|e]; reflexivity.
Qed.

Lemma mkdir_branch_true {W} (H : Host W) (command : string) (st : St W) :
  fst (fst (mkdir_branch H command st)) = Ok true.
Proof.
  unfold mkdir_branch, bind.
  destruct (Py.split1 command) as [|p0 [|p1 l]]; try reflexivity.
  rewrite mkdir_spec.
  destruct (path_home H (world st)) as [home|e]; [|reflexivity].
  simpl. destruct (os_makedirs H _ (world st)) as [w|e]; reflexivity.
Qed.

Lemma no_spawn_mkdir_branch {W} (H : Host W) (command : string) :
  no_spawn (mkdir_branch H command).
Proof. unfold mkdir_branch. quiet. Qed.

(** In 1.0.1 a line whose lowercase form starts with [mkdir] reaches the
    mkdir branch. *)
Lemma mkdir_prefix_reaches_branch {W} (H : Host W) (command : string)
  (st : St W) :
  aliases (self st) = V101.load_aliases (system (self st)) ->
  Py.startswith "mkdir" (Py.lower command) = true ->
  V101.execute_command H command st = mkdir_branch H command st.
Proof.
  intros Hal Hpre.
  destruct (mkdir_line_not_expanded R101 (system (self st)) command Hpre)
    as [Hexp Hne].
  destruct (prefix_split _ _ Hpre) as [L HL].
  unfold V101.execute_command. rewrite Hne, bind_get_self, Hal.
  change V101.load_aliases with (load_aliases R101). rewrite Hexp.
  assert (E1 : Py.startswith "cd " (Py.lower command) = false)
    by (rewrite HL; reflexivity).
  assert (E2 : (Py.lower command == "cd") = false)
    by (rewrite HL; reflexivity).
  assert (E3 : isin (Py.lower command) ["exit"; "quit"] = false)
    by (rewrite HL; reflexivity).
  assert (E4 : isin (Py.lower command) ["clear"; "cls"] = false)
    by (rewrite HL; reflexivity).
  assert (E5 : (Py.lower command == "pwd") = false)
    by (rewrite HL; reflexivity).
  rewrite E1, E2, E3, E4, E5, Hpre. reflexivity.
Qed.

(** C10. In revision 1.0.1, every line whose lowercase form starts with the
    five characters [mkdir] is handled by the mkdir built-in: the line is
    split once at its first white space, what follows the first word is the
    path given to [mkdir], and without it the usage message is printed. No
    process is spawned and [execute_command] returns [True]. So [mkdirs x]
    creates the directory [x]. *)
Theorem mkdir_prefix_is_builtin {W} (H : Host W) (command : string)
  (st : St W) :
  aliases (self st) = V101.load_aliases (system (self st)) ->
  Py.startswith "mkdir" (Py.lower command) = true ->
  V101.execute_command H command st
  = (let* _ := match Py.split1 command with
               | _ :: p1 :: _ => V101.mkdir H p1
               | _ => print "mkdir: missing path"
               end in
     ret true) st
  /\ fst (fst (V101.execute_command H command st)) = Ok true
  /\ (forall c d, ~ In (Spawn c d) (snd (V101.execute_command H command st)))
  /\ V101.execute_command Posix.host "mkdirs x"
       (Posix.boot V101.load_aliases Posix.work [])
     = (Ok true,
        Posix.boot V101.load_aliases (Posix.add_dir "/work/x" Posix.work) [],
        [Stdout "Directory created: x"]).
Proof.
  intros Hal Hpre.
  pose proof (mkdir_prefix_reaches_branch H command st Hal Hpre) as Hb.
  split; [exact Hb|]. rewrite Hb. split; [apply mkdir_branch_true|].
  split; [|vm_compute; reflexivity].
  intros c d Hin. pose proof (no_spawn_mkdir_branch H command st) as Hq.
  rewrite forallb_forall in Hq. specialize (Hq _ Hin). discriminate.
Qed.

Lemma mkdir_prefix_is_builtin_witness :
  fst (fst (V101.execute_command Posix.host "MkDirs a/b"
              (Posix.boot V101.load_aliases Posix.work []))) = Ok true.
Proof.
  refine (proj1 (proj2 (mkdir_prefix_is_builtin Posix.host "MkDirs a/b"
                          (Posix.boot V101.load_aliases Posix.work []) _ _))).
  - reflexivity.
  - reflexivity.
Defined.


Lemma lower_app (a b : string) :
  Py.lower (a +:+ b) = Py.lower a +:+ Py.lower b.
Proof.
  induction a as [|c a IH]; [reflexivity|].
  rewrite app_cons. simpl. now rewrite IH, app_cons.
Qed.







Lemma external_command_true {W} (H : Host W) (c : string) (st : St W) :
  fst (fst (external_command H c st)) = Ok true.
Proof.
  rewrite external_command_spec.
  now destruct (popen_communicate H c (current_dir (self st)) (world st))
    as [[[out err]|e] w].
Qed.




(** ** The history built-in of 1.0.0 *)

Lemma history_not_alias (rev : revision) (sys : string) :
  load_aliases rev sys !! "history" = None.
Proof.
  destruct rev; unfold load_aliases, V100.load_aliases, V101.load_aliases;
    destruct (sys == "windows"); vm_compute; reflexivity.
Qed.

Lemma for_each_print {W A} (l : list A) (body : A -> M W unit)
  (f : A -> string) (st : St W) :
  (forall a, body a = print (f a)) ->
  for_each l body st = (Ok tt, st, map (fun a => Stdout (f a)) l).
Proof.
  intros Hb. induction l as [|x l IH]; [reflexivity|].
  simpl. unfold bind. rewrite Hb. unfold print, emit. now rewrite IH.
Qed.

Lemma enumerate_lookup {A} (l : list A) (start k : nat) :
  Py.enumerate l start !! k = (fun x => (start + k, x)) <$> l !! k.
Proof.
  revert start k. induction l as [|x l IH]; intros start k; [reflexivity|].
  destruct k as [|k]; simpl.
  - now rewrite Nat.add_0_r.
  - rewrite IH. now rewrite Nat.add_succ_r.
Qed.

Lemma last_n_length {A} (n : nat) (l : list A) :
  length (Py.last_n n l) = Nat.min n (length l).
Proof. unfold Py.last_n. rewrite length_skipn. lia. Qed.

(** C4, as the code has it. In revision 1.0.0 the [history] built-in prints
    a heading and then the last lines of the session's history, ten at
    most, in the order they were entered, numbered from 1; the session and
    the world are unchanged and the session goes on. Revision 1.0.1 has no
    such built-in: the line [history] is delegated to the external
    command. *)
Theorem history_command {W} (H : Host W) (rev : revision) (st : St W) :
  aliases (self st) = load_aliases rev (system (self st)) ->
  match rev with
  | R100 =>
      let h := history (self st) in
      let shown := Py.last_n 10 h in
      let listing :=
        map (fun ic => history_line (fst ic) (snd ic)) (Py.enumerate shown 1) in
      execute_command R100 H "history" st
        = (Ok true, st, Stdout "Command History:" :: listing)
      /\ length listing = Nat.min 10 (length h)
      /\ (exists older, h = older ++ shown)
      /\ (forall k cmd, shown !! k = Some cmd ->
                        listing !! k = Some (history_line (S k) cmd))
  | R101 =>
      execute_command R101 H "history" st = external_command H "history" st
  end.
Proof.
  intros Hal.
  assert (Hexp : expand_aliases (aliases (self st)) "history" = "history").
  { apply expand_aliases_miss. rewrite Hal. apply history_not_alias. }
  destruct rev; cbv zeta.
  - repeat split.
    + unfold execute_command, V100.execute_command.
      change (Py.strip "history" == "") with false. cbv iota.
      rewrite bind_get_self, Hexp.
      change (V100.show_history (W := W)) with (@V100.show_history W).
      transitivity ((let* _ := @V100.show_history W in ret true) st);
        [reflexivity|].
      unfold V100.show_history, bind at 1, bind at 1, print at 1, emit.
      rewrite bind_get_self.
      rewrite (for_each_print _ _
                 (fun ic => "  " +:+ Py.str_of_nat (fst ic) +:+ ": "
                            +:+ snd ic)) by (now intros [i cmd]).
      unfold ret. simpl. now rewrite app_nil_r.
    + rewrite length_map.
      assert (Hen : forall {A} (l : list A) s,
                 length (Py.enumerate l s) = length l).
      { intros A l. induction l as [|x l IH]; intros s; simpl;
          [reflexivity | now rewrite IH]. }
      rewrite Hen. apply last_n_length.
    + exists (firstn (length (history (self st)) - 10) (history (self st))).
      unfold Py.last_n. now rewrite firstn_skipn.
    + intros k cmd Hk. rewrite list_lookup_fmap, enumerate_lookup, Hk.
      reflexivity.
  - unfold execute_command, V101.execute_command.
    change (Py.strip "history" == "") with false. cbv iota.
    rewrite bind_get_self, Hexp. reflexivity.
Qed.

Lemma history_command_witness :
  let st := {| world := Posix.work;
               self := history_append "history"
                         (history_append "pwd"
                            (Posix.session V100.load_aliases Posix.work));
               stdin := [] |} in
  execute_command R100 Posix.host "history" st
  = (Ok true, st,
     [Stdout "Command History:"; Stdout "  1: pwd"; Stdout "  2: history"]).
Proof.
  refine (proj1 (history_command Posix.host R100
                   {| world := Posix.work;
                      self := history_append "history"
                                (history_append "pwd"
                                   (Posix.session V100.load_aliases Posix.work));
                      stdin := [] |} _)).
  reflexivity.
Defined.

(** C4 as stated fails in revision 1.0.1: after [pwd] and [history] were
    entered, the history holds both lines, [history] is spawned as an
    external command, and neither the heading nor an entry is printed. *)
Lemma history_not_listed_in_101 :
  let '(r, st', evs) :=
    run R101 Posix.host 2
      (Posix.boot V101.load_aliases Posix.work [Line "pwd"; Line "history"]) in
  history (self st') = ["pwd"; "history"]
  /\ In (Spawn "history" "/work") evs
  /\ ~ In (Stdout "Command History:") evs
  /\ ~ In (history_line 1 "pwd") evs.
Proof.
  vm_compute. repeat split.
  - tauto.
  - intros Hin. repeat (destruct Hin as [Hin|Hin]; [discriminate Hin|]).
    exact Hin.
  - intros Hin. repeat (destruct Hin as [Hin|Hin]; [discriminate Hin|]).
    exact Hin.
Qed.

(** ** Directory listing *)

(** The listing built-in of 1.0.0 is reached by the bare verbs only, where
    its argument splice is empty. *)
Lemma list_directory_no_arguments {W} (H : Host W) (command : string)
  (st : St W) :
  isin (Py.lower command) ["ls"; "dir"] = true ->
  let native := if system (self st) == "windows" then "dir " else "ls " in
  V100.list_directory H command st
  = (Ok tt, set_world (os_system H native (world st)) st, [System native]).
Proof.
  intros Hin native. unfold isin in Hin. simpl in Hin.
  rewrite orb_false_r in Hin. apply orb_true_iff in Hin.
  unfold V100.list_directory, native. m_unfold.
  destruct Hin as [Hl|Hl]; apply String.eqb_eq in Hl; rewrite Hl;
    destruct (system (self st) == "windows"); reflexivity.
Qed.

(** C6. The code does not pass the arguments of a listing line to the
    native listing command. On the POSIX host ([ls] is the native command):
    in 1.0.0, [ls] alone runs [ls ] through [os.system], but [dir /tmp] and
    [LS -la] are spawned as they are typed, and no [ls /tmp] or [ls -la]
    is run; 1.0.1 runs the line as typed in both cases. *)
Theorem listing_arguments_not_spliced :
  (let st := Posix.boot V100.load_aliases Posix.work [] in
   execute_command R100 Posix.host "ls" st = (Ok true, st, [System "ls "])
   /\ execute_command R100 Posix.host "dir /tmp" st
      = (Ok true, st,
         [Spawn "dir /tmp" "/work"; Stderr "/bin/sh: 1: dir: not found"])
   /\ execute_command R100 Posix.host "LS -la" st
      = (Ok true, st,
         [Spawn "LS -la" "/work"; Stderr "/bin/sh: 1: LS: not found"]))
  /\ (let st := Posix.boot V101.load_aliases Posix.work [] in
      execute_command R101 Posix.host "dir" st = (Ok true, st, [System "dir"])
      /\ execute_command R101 Posix.host "dir /tmp" st
         = (Ok true, st,
            [Spawn "dir /tmp" "/work"; Stderr "/bin/sh: 1: dir: not found"])).
Proof. vm_compute. repeat split; reflexivity. Qed.

(** ** The steps of the session loop *)

Lemma get_prompt_cases {W} (H : Host W) (st : St W) :
  get_prompt H st
  = match os_getlogin H (world st) with
    | Ok username => (Ok (prompt_text H username (self st)), st, [])
    | Raise e => (Raise e, st, [])
    end.
Proof.
  unfold get_prompt, prompt_text. m_unfold.
  destruct (os_getlogin H (world st)) as [u|e]; [|reflexivity].
  destruct (system (self st) == "windows"); [reflexivity|].
  destruct (system (self st) == "darwin"); reflexivity.
Qed.

(** A pass of the loop whose prompt cannot be built reads nothing. *)
Lemma loop_body_no_prompt {W} (H : Host W) (rev : revision) (st : St W)
  (e : string) :
  os_getlogin H (world st) = Raise e ->
  loop_body rev H st = (Ok Running, st, [Stdout ("Error: " +:+ e)]).
Proof.
  intros He.
  destruct rev; unfold loop_body, V100.loop_body, V101.loop_body;
    unfold try_except, bind at 1; rewrite get_prompt_cases, He; reflexivity.
Qed.

(** A pass of the loop, by what the input gives. *)
Lemma loop_body_cases {W} (H : Host W) (rev : revision) (st : St W)
  (u : string) :
  os_getlogin H (world st) = Ok u ->
  let p := Prompt (prompt_text H u (self st)) in
  loop_body rev H st
  = match stdin st with
    | [] => (Ok Terminated, st, [p; Stdout (Py.nl +:+ "Goodbye!")])
    | Line raw :: rest =>
        if Py.strip raw == "" then (Ok Running, advance rest st, [p])
        else
          let '(r, st2, evs) :=
            execute_command rev H (Py.strip raw)
              (entered (Py.strip raw) rest st) in
          (Ok (verdict r), st2, p :: evs ++ report r)
    | KeyboardInterrupt :: rest =>
        (Ok Running, advance rest st, [p; Stdout (interrupt_notice rev)])
    | EOFError :: rest =>
        (Ok Terminated, advance rest st, [p; Stdout (Py.nl +:+ "Goodbye!")])
    | InputFailure msg :: rest =>
        (Ok Running, advance rest st, [p; Stdout ("Error: " +:+ msg)])
    end.
Proof.
  intros Hu p. destruct (stdin st) as [|[raw| | |msg] rest] eqn:Hin.
  - destruct rev; unfold loop_body, V100.loop_body, V101.loop_body;
      unfold try_except, bind at 1; rewrite get_prompt_cases, Hu;
      unfold bind at 1, INPUT; rewrite Hin; reflexivity.
  - destruct (Py.strip raw == "") eqn:Hne.
    + destruct rev; unfold loop_body, V100.loop_body, V101.loop_body;
        unfold try_except, bind at 1; rewrite get_prompt_cases, Hu;
        unfold bind at 1, INPUT; rewrite Hin, Hne; reflexivity.
    + destruct (execute_command rev H (Py.strip raw)
                  (entered (Py.strip raw) rest st)) as [[r st2] evs] eqn:He.
      apply loop_body_line with (raw := raw) (rest := rest); try assumption.
      now rewrite get_prompt_cases, Hu.
  - destruct rev; unfold loop_body, V100.loop_body, V101.loop_body;
      unfold try_except, bind at 1; rewrite get_prompt_cases, Hu;
      unfold bind at 1, INPUT; rewrite Hin; reflexivity.
  - destruct rev; unfold loop_body, V100.loop_body, V101.loop_body;
      unfold try_except, bind at 1; rewrite get_prompt_cases, Hu;
      unfold bind at 1, INPUT; rewrite Hin; reflexivity.
  - destruct rev; unfold loop_body, V100.loop_body, V101.loop_body;
      unfold try_except, bind at 1; rewrite get_prompt_cases, Hu;
      unfold bind at 1, INPUT; rewrite Hin; reflexivity.
Qed.

(** ** What a method keeps *)

Section Keeps.
Context {W : Type} (R : St W -> St W -> Prop).
Hypothesis R_refl : forall st, R st st.
Hypothesis R_trans : forall a b c, R a b -> R b c -> R a c.

Lemma keeps_ret {A} (a : A) : keeps R (ret a).
Proof. intros st. apply R_refl. Qed.

Lemma keeps_raise {A} (msg : string) : keeps R (@raise W A msg).
Proof. intros st. apply R_refl. Qed.

Lemma keeps_print (s : string) : keeps R (print s).
Proof. intros st. apply R_refl. Qed.

Lemma keeps_print_err (s : string) : keeps R (print_err s).
Proof. intros st. apply R_refl. Qed.

Lemma keeps_get_self : keeps R get_self.
Proof. intros st. apply R_refl. Qed.

Lemma keeps_ask {A} (f : W -> A) : keeps R (ask f).
Proof. intros st. apply R_refl. Qed.

Lemma keeps_ask_result {A} (f : W -> result A) : keeps R (ask_result f).
Proof. intros st. apply R_refl. Qed.

Lemma keeps_bind {A B} (m : M W A) (f : A -> M W B) :
  keeps R m -> (forall a, keeps R (f a)) -> keeps R (bind m f).
Proof.
  intros Hm Hf st. unfold bind. specialize (Hm st).
  destruct (m st) as [[[a|msg] st1] e1]; simpl in *; [|exact Hm].
  specialize (Hf a st1). destruct (f a st1) as [[r st2] e2]. simpl in *.
  eapply R_trans; eassumption.
Qed.

Lemma keeps_try {A} (m : M W A) (h : string -> M W A) :
  keeps R m -> (forall e, keeps R (h e)) -> keeps R (try_except m h).
Proof.
  intros Hm Hh st. unfold try_except. specialize (Hm st).
  destruct (m st) as [[[a|msg] st1] e1]; simpl in *; [exact Hm|].
  specialize (Hh msg st1). destruct (h msg st1) as [[r st2] e2]. simpl in *.
  eapply R_trans; eassumption.
Qed.

Lemma keeps_if {A} (b : bool) (m1 m2 : M W A) :
  keeps R m1 -> keeps R m2 -> keeps R (if b then m1 else m2).
Proof. now destruct b. Qed.

Lemma keeps_for_each {A} (l : list A) (body : A -> M W unit) :
  (forall a, keeps R (body a)) -> keeps R (for_each l body).
Proof.
  intros Hb. induction l as [|x l IH]; simpl.
  - apply keeps_ret.
  - apply keeps_bind; [apply Hb | intros _; exact IH].
Qed.

Lemma keeps_while_true (fuel : nat) (body : M W status) :
  keeps R body -> keeps R (while_true fuel body).
Proof.
  intros Hb. induction fuel as [|n IH]; simpl.
  - apply keeps_ret.
  - apply keeps_bind; [exact Hb|]. intros [|]; [exact IH | apply keeps_ret].
Qed.
End Keeps.

(** ** Navigation, step by step *)

(** What a navigation attempt changes and prints. *)
Lemma change_directory_step {W} (H : Host W) (path : string)
  (st st' : St W) (r : result bool) (evs : list event) :
  change_directory H path st = (r, st', evs) ->
  same_attributes st st'
  /\ match r with
     | Ok true =>
         (evs = []
          /\ exists q w, os_chdir H q (world st) = Ok w
                         /\ path_exists H q (world st) = true
                         /\ path_isdir H q (world st) = true
                         /\ world st' = w
                         /\ os_getcwd H w = Ok (current_dir (self st')))
         \/ (evs = [Stdout "Already at root directory"] /\ st' = st)
     | Ok false =>
         self st' = self st
         /\ ((st' = st
              /\ exists detail,
                   evs = [Stdout ("Directory not found: " +:+ detail)]
                   \/ evs = [Stdout ("Error changing directory: " +:+ detail)])
             \/ (exists q w e,
                   os_chdir H q (world st) = Ok w
                   /\ path_exists H q (world st) = true
                   /\ path_isdir H q (world st) = true
                   /\ os_getcwd H w = Raise e
                   /\ world st' = w
                   /\ evs = [Stdout ("Error changing directory: " +:+ e)]))
     | Raise _ => False
     end.
Proof.
  unfold same_attributes, change_directory, special_path.
  m_unfold. m_cases; intros Heq; m_done.
  all: repeat match goal with
         | Hb : (_ && _) = true |- _ => apply andb_true_iff in Hb as [? ?]
         end.
  all: (split; [repeat split; reflexivity|]).
  all: try (right; split; reflexivity).
  all: try (left; split;
            [reflexivity|eexists; eexists; repeat split; eassumption]).
  all: (split; [reflexivity|]).
  all: try (left; split; [reflexivity|eexists; left; reflexivity]).
  all: try (left; split; [reflexivity|eexists; right; reflexivity]).
  all: try (right; do 3 eexists; repeat split; eassumption).
Qed.

(** ** Built-ins that leave the object alone *)

Section Steps.
Context {W : Type} (H : Host W) (G : W -> W -> Prop).
Hypothesis G_refl : forall w, G w w.
Hypothesis G_trans : forall a b c, G a b -> G b c -> G a c.
Hypothesis G_system : forall cmd w, G w (os_system H cmd w).
Hypothesis G_popen :
  forall cmd cwd w, G w (snd (popen_communicate H cmd cwd w)).
Hypothesis G_makedirs : forall p w w', os_makedirs H p w = Ok w' -> G w w'.

Lemma world_step_refl (st : St W) : world_step G st st.
Proof. repeat split. apply G_refl. Qed.

Lemma world_step_trans (a b c : St W) :
  world_step G a b -> world_step G b c -> world_step G a c.
Proof.
  intros [Hs1 [Hi1 Hw1]] [Hs2 [Hi2 Hw2]]. repeat split; try congruence.
  eapply G_trans; eassumption.
Qed.

Lemma keeps_system (cmd : string) : keeps (world_step G) (SYSTEM H cmd).
Proof. intros st. repeat split. simpl. apply G_system. Qed.

Lemma keeps_popen (cmd cwd : string) : keeps (world_step G) (POPEN H cmd cwd).
Proof.
  intros st. unfold POPEN. pose proof (G_popen cmd cwd (world st)) as Hg.
  destruct (popen_communicate H cmd cwd (world st)) as [r w].
  repeat split. exact Hg.
Qed.

Lemma keeps_makedirs (p : string) :
  keeps (world_step G) (act (os_makedirs H p)).
Proof.
  intros st. unfold act.
  destruct (os_makedirs H p (world st)) as [w|e] eqn:Hm.
  - repeat split. simpl. now apply (G_makedirs p).
  - apply world_step_refl.
Qed.

Ltac kept :=
  repeat first
    [ apply keeps_ret; exact world_step_refl
    | apply keeps_raise; exact world_step_refl
    | apply keeps_print; exact world_step_refl
    | apply keeps_print_err; exact world_step_refl
    | apply keeps_get_self; exact world_step_refl
    | apply keeps_ask; exact world_step_refl
    | apply keeps_ask_result; exact world_step_refl
    | apply keeps_system
    | apply keeps_popen
    | apply keeps_makedirs
    | assumption
    | apply keeps_bind; [exact world_step_trans | | intros ?]
    | apply keeps_try; [exact world_step_trans | | intros ?]
    | apply keeps_if
    | match goal with
      | |- keeps _ (match ?x with _ => _ end) => destruct x
      end ].

Lemma keeps_clear_screen : keeps (world_step G) (clear_screen H).
Proof. unfold clear_screen. kept. Qed.

Lemma keeps_list_directory (command : string) :
  keeps (world_step G) (V100.list_directory H command).
Proof. unfold V100.list_directory. kept. Qed.

Lemma keeps_show_history : keeps (world_step G) (@V100.show_history W).
Proof.
  unfold V100.show_history. kept.
  apply keeps_for_each; [exact world_step_refl | exact world_step_trans |].
  intros [i cmd]. kept.
Qed.

Lemma keeps_show_help : keeps (world_step G) (@V100.show_help W).
Proof. unfold V100.show_help. kept. Qed.

Lemma keeps_mkdir (path : string) : keeps (world_step G) (V101.mkdir H path).
Proof. unfold V101.mkdir. kept. Qed.

Lemma keeps_external_command (command : string) :
  keeps (world_step G) (external_command H command).
Proof. unfold external_command. kept. Qed.

(** A command line that is not a navigation leaves the object and the
    pending input as they are, and moves the world along [G]. *)
Lemma execute_command_world_step (rev : revision) (command : string)
  (st : St W) :
  let e := Py.lower (expand_aliases (aliases (self st)) command) in
  Py.startswith "cd " e = false ->
  (e == "cd") = false ->
  world_step G st (snd (fst (execute_command rev H command st))).
Proof.
  intros e H1 H2. subst e.
  pose proof keeps_clear_screen. pose proof keeps_list_directory.
  pose proof keeps_show_history. pose proof keeps_show_help.
  pose proof keeps_mkdir. pose proof keeps_external_command.
  destruct rev; unfold execute_command, V100.execute_command,
    V101.execute_command;
    (destruct (Py.strip command == ""); [apply world_step_refl|]);
    rewrite bind_get_self, H1, H2;
    match goal with
    | |- world_step G ?st (snd (fst (?m ?st))) =>
        let Hk := fresh in
        assert (Hk : keeps (world_step G) m) by kept; apply Hk
    end.
Qed.
End Steps.

(** ** The branches of [execute_command] *)

Lemma execute_blank {W} (H : Host W) (rev : revision) (command : string)
  (st : St W) :
  (Py.strip command == "") = true ->
  execute_command rev H command st = (Ok true, st, []).
Proof.
  intros Hb. destruct rev; unfold execute_command, V100.execute_command,
    V101.execute_command; now rewrite Hb.
Qed.

Lemma execute_cd_bare {W} (H : Host W) (rev : revision) (command : string)
  (st : St W) :
  let e := Py.lower (expand_aliases (aliases (self st)) command) in
  (Py.strip command == "") = false ->
  Py.startswith "cd " e = false ->
  (e == "cd") = true ->
  execute_command rev H command st
  = match path_home H (world st) with
    | Ok home => change_directory H home st
    | Raise msg => (Raise msg, st, [])
    end.
Proof.
  intros e Hne H1 H2. subst e.
  destruct rev; unfold execute_command, V100.execute_command,
    V101.execute_command; rewrite Hne, bind_get_self, H1, H2;
    unfold bind, ask_result;
    (destruct (path_home H (world st)) as [home|msg]; [|reflexivity]);
    now destruct (change_directory H home st) as [[r st2] e2].
Qed.

Lemma execute_exit {W} (H : Host W) (rev : revision) (command : string)
  (st : St W) :
  let e := Py.lower (expand_aliases (aliases (self st)) command) in
  (Py.strip command == "") = false ->
  Py.startswith "cd " e = false ->
  (e == "cd") = false ->
  isin e ["exit"; "quit"] = true ->
  execute_command rev H command st = (Ok false, st, [Stdout "Goodbye!"]).
Proof.
  intros e Hne H1 H2 H3. subst e.
  destruct rev; unfold execute_command, V100.execute_command,
    V101.execute_command; rewrite Hne, bind_get_self, H1, H2, H3;
    reflexivity.
Qed.

Lemma total_ret {W A} (a : A) : total (@ret W A a).
Proof. intros st. now exists a. Qed.

Lemma total_print {W} (s : string) : total (@print W s).
Proof. intros st. now exists tt. Qed.

Lemma total_system {W} (H : Host W) (cmd : string) : total (SYSTEM H cmd).
Proof. intros st. now exists tt. Qed.

Lemma total_get_self {W} : total (@get_self W).
Proof. intros st. now exists (self st). Qed.

Lemma total_bind {W A B} (m : M W A) (f : A -> M W B) :
  total m -> (forall a, total (f a)) -> total (bind m f).
Proof.
  intros Hm Hf st. unfold bind. destruct (Hm st) as [a Ha].
  destruct (m st) as [[r st1] e1]. simpl in Ha. subst r.
  destruct (Hf a st1) as [b Hb]. destruct (f a st1) as [[r st2] e2].
  simpl in *. now exists b.
Qed.

Lemma total_try {W A} (m : M W A) (h : string -> M W A) :
  (forall e, total (h e)) -> total (try_except m h).
Proof.
  intros Hh st. unfold try_except.
  destruct (m st) as [[[a|msg] st1] e1]; [now exists a|].
  destruct (Hh msg st1) as [b Hb]. destruct (h msg st1) as [[r st2] e2].
  simpl in *. now exists b.
Qed.

Lemma total_if {W A} (b : bool) (m1 m2 : M W A) :
  total m1 -> total m2 -> total (if b then m1 else m2).
Proof. now destruct b. Qed.

Lemma total_for_each {W A} (l : list A) (body : A -> M W unit) :
  (forall a, total (body a)) -> total (for_each l body).
Proof.
  intros Hb. induction l as [|x l IH]; simpl.
  - apply total_ret.
  - apply total_bind; [apply Hb | intros _; exact IH].
Qed.

Lemma total_while_true {W} (fuel : nat) (body : M W status) :
  total body -> total (while_true fuel body).
Proof.
  intros Hb. induction fuel as [|n IH]; simpl.
  - apply total_ret.
  - apply total_bind; [exact Hb|]. intros [|]; [exact IH | apply total_ret].
Qed.

Ltac totality :=
  repeat first
    [ solve [auto]
    | apply total_ret | apply total_print | apply total_system
    | apply total_get_self
    | apply total_try; intros ?
    | apply total_bind; [|intros ?]
    | apply total_if
    | match goal with
      | |- total (match ?x with _ => _ end) => destruct x
      end ].

Lemma yields_true_bind {W A} (m : M W A) (f : A -> M W bool) :
  total m -> (forall a, yields_true (f a)) -> yields_true (bind m f).
Proof.
  intros Hm Hf st. unfold bind. destruct (Hm st) as [a Ha].
  destruct (m st) as [[r st1] e1]. simpl in Ha. subst r.
  specialize (Hf a st1). now destruct (f a st1) as [[r st2] e2].
Qed.

Lemma yields_true_ret {W} : yields_true (@ret W bool true).
Proof. intros st. reflexivity. Qed.

Lemma total_clear_screen {W} (H : Host W) : total (clear_screen H).
Proof. unfold clear_screen. totality. Qed.

Lemma total_list_directory {W} (H : Host W) (command : string) :
  total (V100.list_directory H command).
Proof. unfold V100.list_directory. totality. Qed.

Lemma total_show_history {W} : total (@V100.show_history W).
Proof.
  unfold V100.show_history. totality.
  apply total_for_each. intros [i cmd]. apply total_print.
Qed.

Lemma total_show_help {W} : total (@V100.show_help W).
Proof. unfold V100.show_help. totality. Qed.

Lemma total_mkdir {W} (H : Host W) (path : string) :
  total (V101.mkdir H path).
Proof. unfold V101.mkdir. totality. Qed.

(** A command line that is neither a navigation nor [exit] or [quit]
    returns [True]. *)
Lemma execute_command_rest_true {W} (H : Host W) (rev : revision)
  (command : string) (st : St W) :
  let e := Py.lower (expand_aliases (aliases (self st)) command) in
  Py.startswith "cd " e = false ->
  (e == "cd") = false ->
  isin e ["exit"; "quit"] = false ->
  fst (fst (execute_command rev H command st)) = Ok true.
Proof.
  intros e H1 H2 H3. subst e.
  pose proof (@total_clear_screen W H). pose proof (@total_list_directory W H).
  pose proof (@total_show_history W). pose proof (@total_show_help W).
  pose proof (@total_mkdir W H).
  destruct rev; unfold execute_command, V100.execute_command,
    V101.execute_command;
    (destruct (Py.strip command == ""); [reflexivity|]);
    rewrite bind_get_self, H1, H2, H3;
    repeat match goal with
      | |- fst (fst ((if ?c then _ else _) _)) = _ => destruct c
      end;
    try apply external_command_true;
    match goal with
    | |- fst (fst (?m ?st)) = Ok true =>
        let Hy := fresh in
        assert (Hy : yields_true m)
          by (repeat (apply yields_true_bind; [totality; auto | intros ?]);
              apply yields_true_ret);
        apply Hy
    end.
Qed.

(** ** What a command line can change, return and raise *)

Lemma execute_command_same_attributes {W} (H : Host W) (rev : revision)
  (command : string) (st : St W) :
  same_attributes st (snd (fst (execute_command rev H command st))).
Proof.
  destruct (Py.strip command == "") eqn:Hne.
  { rewrite execute_blank by exact Hne. now repeat split. }
  destruct (Py.startswith "cd "
              (Py.lower (expand_aliases (aliases (self st)) command)))
    eqn:H1.
  { rewrite execute_cd_line by assumption.
    destruct (change_directory H _ st) as [[r st'] evs] eqn:Hcd.
    now apply change_directory_step in Hcd as [Hs _]. }
  destruct (Py.lower (expand_aliases (aliases (self st)) command) == "cd")
    eqn:H2.
  { rewrite execute_cd_bare by assumption.
    destruct (path_home H (world st)) as [home|msg]; [|now repeat split].
    destruct (change_directory H home st) as [[r st'] evs] eqn:Hcd.
    now apply change_directory_step in Hcd as [Hs _]. }
  destruct (execute_command_world_step H (fun _ _ => True)
              (fun _ => I) (fun _ _ _ _ _ => I) (fun _ _ => I)
              (fun _ _ _ => I) (fun _ _ _ _ => I) rev command st H1 H2)
    as [Hs [Hi _]].
  unfold same_attributes. rewrite Hs, Hi. now repeat split.
Qed.

(** X2. No command line changes the history, the alias table, the platform
    name, the history index or the pending input, and only a navigation
    (an expanded line that is [cd] or starts with [cd ]) can change the
    session's directory. *)
Theorem execute_command_attributes {W} (H : Host W) (rev : revision)
  (command : string) (st : St W) :
  let st' := snd (fst (execute_command rev H command st)) in
  let e := Py.lower (expand_aliases (aliases (self st)) command) in
  same_attributes st st'
  /\ ((Py.startswith "cd " e || (e == "cd")) = false -> self st' = self st).
Proof.
  intros st' e. split; [apply execute_command_same_attributes|].
  intros Hcd. apply orb_false_iff in Hcd as [H1 H2].
  now destruct (execute_command_world_step H (fun _ _ => True)
                  (fun _ => I) (fun _ _ _ _ _ => I) (fun _ _ => I)
                  (fun _ _ _ => I) (fun _ _ _ _ => I) rev command st H1 H2)
    as [Hs _].
Qed.

(** X4. [execute_command] returns [False], which ends the session, in two
    cases only: the expanded line is [exit] or [quit] in any letter case,
    or it is a navigation that failed. The object and the pending input are
    as before and one line is printed. The world is as before too, except
    when [os.chdir] had succeeded and [os.getcwd()] then raised: the
    process has moved then. *)
Theorem execute_command_false_causes {W} (H : Host W) (rev : revision)
  (command : string) (st st' : St W) (evs : list event) :
  execute_command rev H command st = (Ok false, st', evs) ->
  let e := Py.lower (expand_aliases (aliases (self st)) command) in
  self st' = self st
  /\ stdin st' = stdin st
  /\ ((isin e ["exit"; "quit"] = true
       /\ evs = [Stdout "Goodbye!"] /\ st' = st)
      \/ ((Py.startswith "cd " e = true \/ (e == "cd") = true)
          /\ ((st' = st
               /\ exists detail,
                    evs = [Stdout ("Directory not found: " +:+ detail)]
                    \/ evs
                       = [Stdout ("Error changing directory: " +:+ detail)])
              \/ (exists q w msg,
                    os_chdir H q (world st) = Ok w
                    /\ os_getcwd H w = Raise msg
                    /\ world st' = w
                    /\ evs
                       = [Stdout ("Error changing directory: " +:+ msg)])))).
Proof.
  intros Hex e. subst e.
  pose proof (execute_command_same_attributes H rev command st) as Hsame.
  rewrite Hex in Hsame. destruct Hsame as [Hin _]. simpl in Hin.
  assert (Hnav : forall p,
             change_directory H p st = (Ok false, st', evs) ->
             self st' = self st
             /\ ((st' = st
                  /\ exists detail,
                       evs = [Stdout ("Directory not found: " +:+ detail)]
                       \/ evs
                          = [Stdout ("Error changing directory: "
                                     +:+ detail)])
                 \/ (exists q w msg,
                       os_chdir H q (world st) = Ok w
                       /\ os_getcwd H w = Raise msg
                       /\ world st' = w
                       /\ evs
                          = [Stdout ("Error changing directory: "
                                     +:+ msg)]))).
  { intros p Hcd. apply change_directory_step in Hcd as [_ [Hs Hd]].
    split; [exact Hs|].
    destruct Hd as [Hd|[q [w [msg [Hc [_ [_ [Hg [Hw He]]]]]]]]]; [now left|].
    right. exists q, w, msg. auto. }
  destruct (Py.strip command == "") eqn:Hne.
  { rewrite execute_blank in Hex by exact Hne. discriminate. }
  destruct (Py.startswith "cd "
              (Py.lower (expand_aliases (aliases (self st)) command)))
    eqn:H1.
  { rewrite execute_cd_line in Hex by assumption.
    apply Hnav in Hex as [Hs Hd]. repeat split; auto. }
  destruct (Py.lower (expand_aliases (aliases (self st)) command) == "cd")
    eqn:H2.
  { rewrite execute_cd_bare in Hex by assumption.
    destruct (path_home H (world st)) as [home|msg]; [|discriminate].
    apply Hnav in Hex as [Hs Hd]. repeat split; auto. }
  destruct (isin (Py.lower (expand_aliases (aliases (self st)) command))
              ["exit"; "quit"]) eqn:H3.
  { rewrite execute_exit in Hex by assumption. inversion Hex. subst.
    repeat split; auto. }
  pose proof (execute_command_rest_true H rev command st H1 H2 H3) as Ht.
  rewrite Hex in Ht. discriminate.
Qed.

(** X5. [execute_command] lets one exception through: that of [Path.home()]
    when the expanded line is [cd] alone. Nothing was changed or printed
    then. *)
Theorem execute_command_raise_cause {W} (H : Host W) (rev : revision)
  (command : string) (st st' : St W) (msg : string) (evs : list event) :
  execute_command rev H command st = (Raise msg, st', evs) ->
  (Py.lower (expand_aliases (aliases (self st)) command) == "cd") = true
  /\ path_home H (world st) = Raise msg
  /\ st' = st /\ evs = [].
Proof.
  intros Hex.
  destruct (Py.strip command == "") eqn:Hne.
  { rewrite execute_blank in Hex by exact Hne. discriminate. }
  destruct (Py.startswith "cd "
              (Py.lower (expand_aliases (aliases (self st)) command)))
    eqn:H1.
  { rewrite execute_cd_line in Hex by assumption.
    now apply change_directory_step in Hex as [_ Hd]. }
  destruct (Py.lower (expand_aliases (aliases (self st)) command) == "cd")
    eqn:H2.
  { rewrite execute_cd_bare in Hex by assumption.
    destruct (path_home H (world st)) as [home|msg'].
    - now apply change_directory_step in Hex as [_ Hd].
    - inversion Hex. auto. }
  destruct (isin (Py.lower (expand_aliases (aliases (self st)) command))
              ["exit"; "quit"]) eqn:H3.
  { rewrite execute_exit in Hex by assumption. discriminate. }
  pose proof (execute_command_rest_true H rev command st H1 H2 H3) as Ht.
  rewrite Hex in Ht. discriminate.
Qed.

(** ** Invariants of a whole session *)

Lemma banner_silent {W} (H : Host W) (rev : revision) (st : St W) :
  exists shown,
    match rev with
    | R100 => V100.banner H st
    | R101 => V101.banner H st
    end = (Ok tt, st, shown)
    /\ Forall (fun e => is_stdout e = true) shown.
Proof.
  destruct rev; eexists; (split; [reflexivity|]); repeat constructor.
Qed.

Lemma run_unfold {W} (H : Host W) (rev : revision) (fuel : nat) (st : St W) :
  exists shown,
    Forall (fun e => is_stdout e = true) shown
    /\ run rev H fuel st
       = (fst (fst (while_true fuel (loop_body rev H) st)),
          snd (fst (while_true fuel (loop_body rev H) st)),
          shown ++ snd (while_true fuel (loop_body rev H) st)).
Proof.
  destruct (banner_silent H rev st) as [shown [Hb Hs]].
  exists shown. split; [exact Hs|].
  destruct rev; unfold run, V100.run, V101.run, bind; rewrite Hb;
    unfold loop_body;
    now destruct (while_true fuel _ st) as [[r st'] e].
Qed.

Section Session.
Context {W : Type} (H : Host W).

(** The host's shell commands and directory creation leave the working
    directory of the process alone. *)
Hypothesis system_keeps_cwd :
  forall cmd w, os_getcwd H (os_system H cmd w) = os_getcwd H w.
Hypothesis popen_keeps_cwd :
  forall cmd cwd w,
    os_getcwd H (snd (popen_communicate H cmd cwd w)) = os_getcwd H w.
Hypothesis makedirs_keeps_cwd :
  forall p w w', os_makedirs H p w = Ok w' -> os_getcwd H w' = os_getcwd H w.

(** Right after a successful [os.chdir], [os.getcwd()] succeeds. *)
Hypothesis getcwd_after_chdir :
  forall p w w', os_chdir H p w = Ok w' -> exists d, os_getcwd H w' = Ok d.

Lemma change_directory_keeps_consistent (path : string) (st : St W) :
  consistent H st ->
  consistent H (snd (fst (change_directory H path st))).
Proof.
  intros Hc.
  destruct (change_directory H path st) as [[r st'] evs] eqn:Hcd.
  apply change_directory_step in Hcd as [_ Hr]. simpl.
  destruct r as [[|]|msg]; [| |contradiction].
  - destruct Hr as [[_ [q [w [_ [_ [_ [Hw Hg]]]]]]]|[_ ->]]; [|exact Hc].
    unfold consistent. now rewrite Hw.
  - destruct Hr as [_ [[-> _]|[q [w [e [Hch [_ [_ [Hg _]]]]]]]]]; [exact Hc|].
    destruct (getcwd_after_chdir q (world st) w Hch) as [d Hd]. congruence.
Qed.

Lemma execute_command_consistent (rev : revision) (command : string)
  (st : St W) :
  consistent H st ->
  consistent H (snd (fst (execute_command rev H command st))).
Proof.
  intros Hc.
  destruct (Py.strip command == "") eqn:Hne.
  { now rewrite execute_blank by exact Hne. }
  destruct (Py.startswith "cd "
              (Py.lower (expand_aliases (aliases (self st)) command)))
    eqn:H1.
  { rewrite execute_cd_line by assumption.
    now apply change_directory_keeps_consistent. }
  destruct (Py.lower (expand_aliases (aliases (self st)) command) == "cd")
    eqn:H2.
  { rewrite execute_cd_bare by assumption.
    destruct (path_home H (world st)) as [home|msg]; [|exact Hc].
    now apply change_directory_keeps_consistent. }
  destruct (execute_command_world_step H
              (fun w w' => os_getcwd H w' = os_getcwd H w)
              (fun _ => eq_refl)
              (fun a b c Hab Hbc => eq_trans Hbc Hab)
              system_keeps_cwd popen_keeps_cwd makedirs_keeps_cwd
              rev command st H1 H2) as [Hs [_ Hw]].
  unfold consistent in *. now rewrite Hs, Hw.
Qed.

Lemma loop_body_consistent (rev : revision) (st : St W) :
  consistent H st -> consistent H (snd (fst (loop_body rev H st))).
Proof.
  intros Hc. destruct (os_getlogin H (world st)) as [u|e] eqn:Hu.
  - rewrite (loop_body_cases H rev st u Hu).
    destruct (stdin st) as [|[raw| | |msg] rest]; try exact Hc.
    destruct (Py.strip raw == ""); [exact Hc|].
    pose proof (execute_command_consistent rev (Py.strip raw)
                  (entered (Py.strip raw) rest st) Hc) as Hk.
    now destruct (execute_command rev H _ _) as [[r st2] evs].
  - now rewrite (loop_body_no_prompt H rev st e Hu).
Qed.

(** X3. The session's directory is the working directory of the process
    throughout a session, however long it runs and whatever is typed, on
    a host whose shell commands and directory creation do not move the
    process and on which [os.getcwd()] succeeds right after a successful
    [os.chdir]. It is so when the terminal is constructed. *)
Theorem session_consistent (rev : revision) (fuel : nat) (st : St W) :
  consistent H st ->
  consistent H (snd (fst (run rev H fuel st)))
  /\ (forall la w i s,
        init H la w = Ok s ->
        consistent H {| world := w; self := s; stdin := i |}).
Proof.
  intros Hc. split.
  - destruct (run_unfold H rev fuel st) as [shown [_ ->]]. simpl.
    revert Hc.
    apply (keeps_while_true
             (fun a b => consistent H a -> consistent H b)
             (fun _ Ha => Ha) (fun a b c Hab Hbc Ha => Hbc (Hab Ha))).
    intros st0. apply loop_body_consistent.
  - intros la w i s. unfold init, consistent. simpl.
    destruct (os_getcwd H w) as [d|e]; [|discriminate].
    now intros [= <-].
Qed.
End Session.

Lemma entered_lines_app (a b : list input_event) :
  entered_lines (a ++ b) = entered_lines a ++ entered_lines b.
Proof.
  induction a as [|[raw| | |msg] a IH]; simpl; try assumption; [reflexivity|].
  destruct (Py.strip raw == ""); [exact IH | now rewrite IH].
Qed.

(** What a pass of the loop takes from the input, and what it adds to the
    history. *)
Lemma loop_body_reads {W} (H : Host W) (rev : revision) (st : St W) :
  let st' := snd (fst (loop_body rev H st)) in
  exists consumed,
    stdin st = consumed ++ stdin st'
    /\ length consumed <= 1
    /\ history (self st') = history (self st) ++ entered_lines consumed.
Proof.
  destruct (os_getlogin H (world st)) as [u|e] eqn:Hu.
  - rewrite (loop_body_cases H rev st u Hu).
    destruct (stdin st) as [|[raw| | |msg] rest] eqn:Hin; simpl.
    + exists []. rewrite Hin, app_nil_r. repeat split; simpl; rewrite ?app_nil_r; first [reflexivity | lia].
    + destruct (Py.strip raw == "") eqn:Hne.
      * exists [Line raw]. simpl. rewrite Hne, app_nil_r. repeat split; simpl; rewrite ?app_nil_r; first [reflexivity | lia].
      * pose proof (execute_command_same_attributes H rev (Py.strip raw)
                      (entered (Py.strip raw) rest st)) as [Hi [_ [Hh _]]].
        destruct (execute_command rev H _ _) as [[r st2] evs]. simpl in *.
        exists [Line raw]. simpl. rewrite Hne, Hi, Hh. repeat split; simpl; rewrite ?app_nil_r; first [reflexivity | lia].
    + exists [KeyboardInterrupt]. simpl. rewrite app_nil_r. repeat split; simpl; rewrite ?app_nil_r; first [reflexivity | lia].
    + exists [EOFError]. simpl. rewrite app_nil_r. repeat split; simpl; rewrite ?app_nil_r; first [reflexivity | lia].
    + exists [InputFailure msg]. simpl. rewrite app_nil_r. repeat split; simpl; rewrite ?app_nil_r; first [reflexivity | lia].
  - rewrite (loop_body_no_prompt H rev st e Hu). simpl.
    exists []. rewrite app_nil_r. repeat split; simpl; rewrite ?app_nil_r; first [reflexivity | lia].
Qed.

(** X1. The history is append-only and records the input: after a session of
    any length, the input splits into what was read and what is left, and
    the history is the one at the start followed by the lines read that are
    not blank, trimmed, in the order they were typed. *)
Theorem run_history {W} (H : Host W) (rev : revision) (fuel : nat)
  (st : St W) :
  let st' := snd (fst (run rev H fuel st)) in
  exists consumed,
    stdin st = consumed ++ stdin st'
    /\ history (self st') = history (self st) ++ entered_lines consumed.
Proof.
  destruct (run_unfold H rev fuel st) as [shown [_ ->]]. simpl.
  apply (keeps_while_true
           (fun a b => exists consumed,
                stdin a = consumed ++ stdin b
                /\ history (self b) = history (self a) ++ entered_lines consumed)).
  - intros a. exists []. now rewrite app_nil_r.
  - intros a b c [c1 [Hi1 Hh1]] [c2 [Hi2 Hh2]]. exists (c1 ++ c2).
    rewrite Hi1, Hi2, Hh2, Hh1, entered_lines_app, !app_assoc. auto.
  - intros st0. destruct (loop_body_reads H rev st0) as [c [Hi [_ Hh]]].
    now exists c.
Qed.

(** ** How a session ends *)




(** X7. When the login name cannot be read, the prompt cannot be built: every
    pass of the loop prints the error and goes on without reading input,
    on every platform (also where the prompt does not show the name). The
    session never ends and never executes a command. *)
Theorem run_without_login {W} (H : Host W) (rev : revision) (fuel : nat)
  (st : St W) (e : string) :
  os_getlogin H (world st) = Raise e ->
  while_true fuel (loop_body rev H) st
    = (Ok Running, st, repeat (Stdout ("Error: " +:+ e)) fuel)
  /\ fst (run rev H fuel st) = (Ok Running, st).
Proof.
  intros He.
  assert (Hw : while_true fuel (loop_body rev H) st
               = (Ok Running, st, repeat (Stdout ("Error: " +:+ e)) fuel)).
  { induction fuel as [|n IH]; [reflexivity|].
    simpl. unfold bind at 1. rewrite (loop_body_no_prompt H rev st e He).
    now rewrite IH. }
  split; [exact Hw|].
  destruct (run_unfold H rev fuel st) as [shown [_ ->]]. now rewrite Hw.
Qed.

Lemma total_loop_body {W} (H : Host W) (rev : revision) :
  total (loop_body rev H).
Proof.
  destruct rev; unfold loop_body, V100.loop_body, V101.loop_body;
    apply total_try; intros e; totality.
Qed.

(** X8. No exception leaves the loop of [run], and a pass of the loop ends
    the session in two cases only: the input is at its end, or the line
    read made [execute_command] return [False]. *)
Theorem session_loop_outcomes {W} (H : Host W) (rev : revision)
  (fuel : nat) (st : St W) :
  (exists s, fst (fst (run rev H fuel st)) = Ok s)
  /\ (exists s, fst (fst (loop_body rev H st)) = Ok s)
  /\ (fst (fst (loop_body rev H st)) = Ok Terminated ->
      stdin st = []
      \/ (exists rest, stdin st = EOFError :: rest)
      \/ (exists raw rest,
            stdin st = Line raw :: rest
            /\ (Py.strip raw == "") = false
            /\ fst (fst (execute_command rev H (Py.strip raw)
                           (entered (Py.strip raw) rest st))) = Ok false)).
Proof.
  repeat split.
  - destruct (run_unfold H rev fuel st) as [shown [_ ->]]. simpl.
    apply total_while_true, total_loop_body.
  - apply total_loop_body.
  - destruct (os_getlogin H (world st)) as [u|e] eqn:Hu.
    + rewrite (loop_body_cases H rev st u Hu).
      destruct (stdin st) as [|[raw| | |msg] rest] eqn:Hin; simpl; eauto;
        try discriminate.
      destruct (Py.strip raw == "") eqn:Hne; [discriminate|].
      destruct (execute_command rev H _ _) as [[r st2] evs] eqn:He.
      simpl. intros Hv. right. right. exists raw, rest.
      repeat split; try assumption. rewrite He. simpl.
      destruct r as [[|]|msg]; simpl in Hv; congruence.
    + rewrite (loop_body_no_prompt H rev st e Hu). discriminate.
Qed.

(** ** Verbs in any letter case *)

Lemma nospace_lower (s : string) : nospace (Py.lower s) = nospace s.
Proof.
  induction s as [|c s IH]; [reflexivity|].
  simpl. now rewrite isspace_lower_char, IH.
Qed.

Lemma alias_entries (rev : revision) (sys k v : string) :
  load_aliases rev sys !! k = Some v ->
  (k, v) ∈
    [("ls", "dir"); ("rm", "del"); ("cp", "copy"); ("mv", "move");
     ("cat", "type"); ("pwd", "cd"); ("mkdir -p", "mkdir");
     ("ll", "ls -la"); ("la", "ls -a"); ("cls", "clear"); ("md", "mkdir");
     ("rd", "rmdir"); ("..", "cd .."); ("...", "cd ../..");
     ("....", "cd ../../..")].
Proof.
  intros Hl.
  destruct rev; unfold load_aliases, V100.load_aliases, V101.load_aliases,
    base_aliases in Hl; destruct (sys == "windows");
    try apply lookup_union_Some_raw in Hl as [Hl|[_ Hl]];
    apply elem_of_list_to_map_2 in Hl;
    repeat (apply elem_of_cons in Hl as [Hl|Hl];
            [inversion Hl; subst; set_solver|]);
    now apply elem_of_nil in Hl.
Qed.

(** A word that is no key of the alias table in lower case is no key in any
    letter case: the line is not expanded. *)
Lemma lower_word_unexpanded (rev : revision) (sys command : string) :
  nospace (Py.lower command) = true ->
  isin (Py.lower command) lowered_keys = false ->
  expand_aliases (load_aliases rev sys) command = command.
Proof.
  intros Hn Hk. rewrite nospace_lower in Hn.
  destruct command as [|c s]; [reflexivity|].
  apply expand_aliases_miss. rewrite split_word by (split; [discriminate|exact Hn]).
  destruct (load_aliases rev sys !! String c s) as [v|] eqn:Hl; [|reflexivity].
  exfalso. apply alias_entries in Hl.
  repeat (apply elem_of_cons in Hl as [Hl|Hl];
          [inversion Hl as [[Hc Hs]]; rewrite Hc, Hs in Hk;
           vm_compute in Hk; congruence|]).
  now apply elem_of_nil in Hl.
Qed.

Lemma lower_word_not_blank (command w : string) (c : ascii) :
  Py.lower command = String c w ->
  Py.isspace c = false ->
  (Py.strip command == "") = false.
Proof.
  intros Hl Hc. destruct command as [|x s]; [discriminate|].
  simpl in Hl. injection Hl as Hx _. apply strip_nonempty.
  now rewrite <- isspace_lower_char, Hx.
Qed.

(** X9. [exit] and [quit], in any letter case, end the session with a
    farewell and change nothing, in both revisions on every platform. *)
Theorem exit_in_any_case {W} (H : Host W) (rev : revision)
  (command : string) (st : St W) :
  aliases (self st) = load_aliases rev (system (self st)) ->
  isin (Py.lower command) ["exit"; "quit"] = true ->
  execute_command rev H command st = (Ok false, st, [Stdout "Goodbye!"]).
Proof.
  intros Hal Hin.
  assert (Hw : Py.lower command = "exit" \/ Py.lower command = "quit").
  { unfold isin in Hin. simpl in Hin. rewrite orb_false_r in Hin.
    apply orb_true_iff in Hin as [Hin|Hin]; apply String.eqb_eq in Hin; auto. }
  assert (Hexp : expand_aliases (aliases (self st)) command = command).
  { rewrite Hal. apply lower_word_unexpanded;
      destruct Hw as [-> | ->]; reflexivity. }
  apply execute_exit; rewrite ?Hexp.
  - destruct Hw as [Hw|Hw]; eapply lower_word_not_blank; eauto.
  - destruct Hw as [-> | ->]; reflexivity.
  - destruct Hw as [-> | ->]; reflexivity.
  - exact Hin.
Qed.

Lemma show_history_events {W} (st : St W) :
  @V100.show_history W st
  = (Ok tt, st,
     Stdout "Command History:"
       :: map (fun ic => history_line (fst ic) (snd ic))
            (Py.enumerate (Py.last_n 10 (history (self st))) 1)).
Proof.
  unfold V100.show_history, bind at 1, print at 1, emit.
  rewrite bind_get_self.
  rewrite (for_each_print _ _
             (fun ic => "  " +:+ Py.str_of_nat (fst ic) +:+ ": " +:+ snd ic))
    by (now intros [i cmd]).
  reflexivity.
Qed.

(** X10. [help], in any letter case, prints the help text in revision 1.0.0; in
    revision 1.0.1, whose banner announces it, the line is delegated to the
    external command. *)
Theorem help_in_any_case {W} (H : Host W) (rev : revision)
  (command : string) (st : St W) :
  aliases (self st) = load_aliases rev (system (self st)) ->
  Py.lower command = "help" ->
  execute_command rev H command st
  = match rev with
    | R100 => (Ok true, st, [Stdout V100.help_text])
    | R101 => external_command H command st
    end.
Proof.
  intros Hal Hw.
  assert (Hexp : expand_aliases (aliases (self st)) command = command).
  { rewrite Hal. apply lower_word_unexpanded; rewrite Hw; reflexivity. }
  assert (Hne : (Py.strip command == "") = false)
    by (eapply lower_word_not_blank; eauto).
  destruct rev; unfold execute_command, V100.execute_command,
    V101.execute_command; rewrite Hne, bind_get_self, Hexp, Hw; reflexivity.
Qed.

(** X11. The listing built-ins, for [ls] or [dir] alone in any letter case when
    the word is not an alias: revision 1.0.0 runs the platform's command
    whichever of the two was typed ([dir ] on Windows, [ls ] elsewhere);
    revision 1.0.1 runs the line as it was typed. *)
Theorem listing_bare_verb {W} (H : Host W) (rev : revision)
  (command : string) (st : St W) :
  aliases (self st) !! command = None ->
  isin (Py.lower command) ["ls"; "dir"] = true ->
  let shell :=
    match rev with
    | R100 => if system (self st) == "windows" then "dir " else "ls "
    | R101 => command
    end in
  execute_command rev H command st
  = (Ok true, set_world (os_system H shell (world st)) st, [System shell]).
Proof.
  intros Hal Hin shell.
  assert (Hw : Py.lower command = "ls" \/ Py.lower command = "dir").
  { unfold isin in Hin. simpl in Hin. rewrite orb_false_r in Hin.
    apply orb_true_iff in Hin as [Hi|Hi]; apply String.eqb_eq in Hi; auto. }
  assert (Htok : is_token command).
  { split.
    - intros ->. destruct Hw; discriminate.
    - rewrite <- nospace_lower. destruct Hw as [-> | ->]; reflexivity. }
  assert (Hexp : expand_aliases (aliases (self st)) command = command).
  { apply expand_aliases_miss. now rewrite split_word. }
  assert (Hne : (Py.strip command == "") = false)
    by (destruct Hw; eapply lower_word_not_blank; eauto).
  destruct rev; unfold execute_command, V100.execute_command,
    V101.execute_command; rewrite Hne, bind_get_self, Hexp.
  - assert (Hl := list_directory_no_arguments H command st Hin).
    cbv zeta in Hl.
    assert (E1 : Py.startswith "cd " (Py.lower command) = false)
      by (destruct Hw as [-> | ->]; reflexivity).
    assert (E2 : (Py.lower command == "cd") = false)
      by (destruct Hw as [-> | ->]; reflexivity).
    assert (E3 : isin (Py.lower command) ["exit"; "quit"] = false)
      by (destruct Hw as [-> | ->]; reflexivity).
    assert (E4 : isin (Py.lower command) ["clear"; "cls"] = false)
      by (destruct Hw as [-> | ->]; reflexivity).
    assert (E5 : (Py.lower command == "pwd") = false)
      by (destruct Hw as [-> | ->]; reflexivity).
    rewrite E1, E2, E3, E4, E5, Hin. unfold bind. now rewrite Hl.
  - assert (E1 : Py.startswith "cd " (Py.lower command) = false)
      by (destruct Hw as [-> | ->]; reflexivity).
    assert (E2 : (Py.lower command == "cd") = false)
      by (destruct Hw as [-> | ->]; reflexivity).
    assert (E3 : isin (Py.lower command) ["exit"; "quit"] = false)
      by (destruct Hw as [-> | ->]; reflexivity).
    assert (E4 : isin (Py.lower command) ["clear"; "cls"] = false)
      by (destruct Hw as [-> | ->]; reflexivity).
    assert (E5 : (Py.lower command == "pwd") = false)
      by (destruct Hw as [-> | ->]; reflexivity).
    assert (E6 : Py.startswith "mkdir" (Py.lower command) = false)
      by (destruct Hw as [-> | ->]; reflexivity).
    rewrite E1, E2, E3, E4, E5, E6, Hin. reflexivity.
Qed.

(** ** A key of the alias table typed alone *)

Lemma ends_with_space_app (s : string) : ends_with_space (s +:+ " ") = true.
Proof.
  induction s as [|c s IH]; [reflexivity|].
  rewrite app_cons. simpl. destruct (s +:+ " ") eqn:Hs; [|exact IH].
  destruct s; discriminate.
Qed.

Lemma eqb_trailing_space (s w : string) :
  ends_with_space w = false -> (s +:+ " " == w) = false.
Proof.
  intros Hw. apply String.eqb_neq. intros Heq.
  rewrite <- Heq, ends_with_space_app in Hw. discriminate.
Qed.

Lemma token_not_blank (t : string) :
  is_token t -> (Py.strip t == "") = false.
Proof.
  intros [Hne Ht]. destruct t as [|c s]; [congruence|].
  simpl in Ht. apply andb_true_iff in Ht as [Hc _].
  apply negb_true_iff in Hc. now apply strip_nonempty.
Qed.

(** X12. A key of the alias table typed alone expands to its text followed by a
    space, which none of the built-ins that compare the whole line
    recognises: the line is a navigation when the text starts with [cd ],
    in revision 1.0.1 a mkdir when it starts with [mkdir], and is delegated
    to the external command otherwise. So [cls] never reaches
    [clear_screen], and on Windows [ls] never reaches the listing built-in
    and [pwd] never prints the directory. *)
Theorem bare_alias_dispatch {W} (H : Host W) (rev : revision) (t v : string)
  (st : St W) :
  aliases (self st) !! t = Some v ->
  is_token t ->
  let e := v +:+ " " in
  execute_command rev H t st
  = if Py.startswith "cd " (Py.lower e) then
      change_directory H (Py.strip (Py.drop 3 e)) st
    else
      match rev with
      | R100 => external_command H e st
      | R101 =>
          if Py.startswith "mkdir" (Py.lower e) then mkdir_branch H e st
          else external_command H e st
      end.
Proof.
  intros Hl Ht e.
  assert (Hexp : expand_aliases (aliases (self st)) t = e).
  { rewrite (expand_aliases_hit _ t t v []); [reflexivity| |exact Hl].
    now apply split_word. }
  assert (Hne := token_not_blank t Ht).
  destruct (Py.startswith "cd " (Py.lower e)) eqn:Hcd.
  { rewrite execute_cd_line; rewrite ?Hexp; auto. }
  assert (Hw : forall w, ends_with_space w = false -> (Py.lower e == w) = false).
  { intros w Hw. unfold e. rewrite lower_app. now apply eqb_trailing_space. }
  destruct rev; unfold execute_command, V100.execute_command,
    V101.execute_command, mkdir_branch, isin, existsb;
    rewrite Hne, bind_get_self, Hexp, Hcd, !Hw by reflexivity;
    cbn [orb]; try reflexivity;
    destruct (Py.startswith "mkdir" (Py.lower e)); reflexivity.
Qed.

(** ** The two alias tables *)

Lemma scan_nospace (s : string) :
  nospace (fst (Py.scan s)) = true
  /\ Forall (fun t => nospace t = true) (snd (Py.scan s)).
Proof.
  induction s as [|c s [IHt IHl]]; [now split|].
  simpl. destruct (Py.scan s) as [t l]. simpl in *.
  destruct (Py.isspace c) eqn:Hc; simpl.
  - split; [reflexivity|]. destruct t; [exact IHl|]. now constructor.
  - now rewrite Hc.
Qed.

Lemma split_nospace (s : string) :
  Forall (fun t => nospace t = true) (Py.split s).
Proof.
  unfold Py.split. destruct (scan_nospace s) as [Ht Hl].
  destruct (Py.scan s) as [t l]. simpl in *.
  destruct t; [exact Hl|]. now constructor.
Qed.

(** X13. The entry [mkdir -p] that revision 1.0.1 adds on Windows is never used:
    its key is two words, and a key is looked up with the first word of the
    line. Both revisions expand every line alike on every platform. *)
Theorem alias_tables_expand_alike (sys line : string) :
  expand_aliases (V101.load_aliases sys) line
  = expand_aliases (V100.load_aliases sys) line.
Proof.
  unfold expand_aliases. pose proof (split_nospace line) as Hn.
  destruct (Py.split line) as [|p0 rest]; [reflexivity|].
  inversion_clear Hn as [|? ? Hp0 _].
  assert (Heq : V101.load_aliases sys !! p0 = V100.load_aliases sys !! p0).
  { unfold V101.load_aliases, V100.load_aliases.
    destruct (sys == "windows"); [|reflexivity].
    rewrite !lookup_union. f_equal. simpl.
    rewrite !lookup_insert. repeat case_decide; try reflexivity.
    subst p0. discriminate. }
  now rewrite Heq.
Qed.

(** ** Navigation: what is printed, what is entered *)

(** X14. A navigation attempt changes no attribute but the directory and
    never raises. When it moves, [os.chdir] was given a path that exists
    and is a directory, the session's directory is what [os.getcwd()] then
    returned, and nothing is printed; staying at the root prints the
    notice. A failure prints one line and leaves the object as it was; the
    world is as it was too, except when [os.chdir] had succeeded and
    [os.getcwd()] then raised: the process has moved then and the
    session's directory is stale. *)
Theorem navigation_report {W} (H : Host W) (path : string)
  (st st' : St W) (r : result bool) (evs : list event) :
  change_directory H path st = (r, st', evs) ->
  same_attributes st st'
  /\ match r with
     | Ok true =>
         (evs = []
          /\ exists q w, os_chdir H q (world st) = Ok w
                         /\ path_exists H q (world st) = true
                         /\ path_isdir H q (world st) = true
                         /\ world st' = w
                         /\ os_getcwd H w = Ok (current_dir (self st')))
         \/ (evs = [Stdout "Already at root directory"] /\ st' = st)
     | Ok false =>
         self st' = self st
         /\ ((st' = st
              /\ exists detail,
                   evs = [Stdout ("Directory not found: " +:+ detail)]
                   \/ evs = [Stdout ("Error changing directory: " +:+ detail)])
             \/ (exists q w e,
                   os_chdir H q (world st) = Ok w
                   /\ path_exists H q (world st) = true
                   /\ path_isdir H q (world st) = true
                   /\ os_getcwd H w = Raise e
                   /\ world st' = w
                   /\ evs = [Stdout ("Error changing directory: " +:+ e)]))
     | Raise _ => False
     end.
Proof. apply change_directory_step. Qed.

(** X15. A path that is neither [~], [-] nor starts with [~] is taken as
    it is when absolute and joined to the session's directory otherwise,
    then normalised. When it exists and is a directory the terminal asks
    the host to enter it and reads the directory back; otherwise it reports
    the normalised path as not found. An error of [os.chdir] is reported
    and changes nothing; an error of [os.getcwd()] after the move is
    reported too, with the process moved and the session's directory as
    before. *)
Theorem navigation_plain_path {W} (H : Host W) (path : string) (st : St W) :
  (path == "~") = false ->
  (path == "-") = false ->
  Py.startswith "~" path = false ->
  let target :=
    path_normpath H
      (if path_isabs H path then path
       else path_join H (current_dir (self st)) path) in
  change_directory H path st
  = if path_exists H target (world st) && path_isdir H target (world st)
    then
      match os_chdir H target (world st) with
      | Ok w =>
          match os_getcwd H w with
          | Ok d =>
              (Ok true,
               {| world := w;
                  self := set_current_dir d (self st);
                  stdin := stdin st |}, [])
          | Raise e =>
              (Ok false,
               {| world := w; self := self st; stdin := stdin st |},
               [Stdout ("Error changing directory: " +:+ e)])
          end
      | Raise e => (Ok false, st, [Stdout ("Error changing directory: " +:+ e)])
      end
    else (Ok false, st, [Stdout ("Directory not found: " +:+ target)]).
Proof.
  intros H1 H2 H3 target. subst target.
  unfold change_directory, special_path. rewrite H1, H2. m_unfold.
  rewrite H3. simpl.
  destruct (path_isabs H path); simpl;
    (destruct (path_exists H _ (world st) && path_isdir H _ (world st));
     simpl; [|reflexivity]);
    (destruct (os_chdir H _ (world st)) as [w|e]; [|reflexivity]);
    simpl; (destruct (os_getcwd H w); reflexivity).
Qed.

(** ** The history command lists itself *)

Lemma enumerate_app {A} (l1 l2 : list A) (start : nat) :
  Py.enumerate (l1 ++ l2) start
  = Py.enumerate l1 start ++ Py.enumerate l2 (start + length l1).
Proof.
  revert start. induction l1 as [|x l1 IH]; intros start; simpl.
  - now rewrite Nat.add_0_r.
  - rewrite IH. now rewrite Nat.add_succ_r.
Qed.

Lemma last_n_snoc {A} (n : nat) (l : list A) (x : A) :
  Py.last_n (S n) (l ++ [x]) = Py.last_n n l ++ [x].
Proof.
  unfold Py.last_n. rewrite length_app. simpl.
  replace (length l + 1 - S n) with (length l - n) by lia.
  rewrite skipn_app.
  replace (length l - n - length l) with 0 by lia. reflexivity.
Qed.

(** X16. In revision 1.0.0 a line is appended to the history before it is
    executed, so the listing that [history] (in any letter case) prints
    ends with that very line, after at most nine earlier ones; the session
    goes on. *)
Theorem history_lists_itself {W} (H : Host W) (st : St W)
  (raw u : string) (rest : list input_event) :
  os_getlogin H (world st) = Ok u ->
  aliases (self st) = load_aliases R100 (system (self st)) ->
  stdin st = Line raw :: rest ->
  Py.lower (Py.strip raw) = "history" ->
  let earlier := Py.last_n 9 (history (self st)) in
  loop_body R100 H st
  = (Ok Running, entered (Py.strip raw) rest st,
     Prompt (prompt_text H u (self st))
       :: Stdout "Command History:"
       :: map (fun ic => history_line (fst ic) (snd ic))
            (Py.enumerate earlier 1)
       ++ [history_line (S (length earlier)) (Py.strip raw)])
  /\ length earlier <= 9.
Proof.
  intros Hu Hal Hin Hw earlier.
  split; [|unfold earlier; rewrite last_n_length; lia].
  set (command := Py.strip raw) in *.
  assert (Hne : (Py.strip command == "") = false)
    by (eapply lower_word_not_blank; eauto).
  assert (Hne' : (command == "") = false).
  { apply String.eqb_neq. intros Heq. rewrite Heq in Hw. discriminate. }
  assert (Hexp : expand_aliases (aliases (self st)) command = command).
  { rewrite Hal. apply lower_word_unexpanded; rewrite Hw; reflexivity. }
  rewrite (loop_body_cases H R100 st u Hu), Hin. fold command.
  rewrite Hne'.
  assert (Hex : execute_command R100 H command (entered command rest st)
                = (Ok true, entered command rest st,
                   Stdout "Command History:"
                     :: map (fun ic => history_line (fst ic) (snd ic))
                          (Py.enumerate
                             (Py.last_n 10 (history (self st) ++ [command])) 1))).
  { unfold execute_command, V100.execute_command.
    rewrite Hne, bind_get_self.
    change (aliases (self (entered command rest st)))
      with (aliases (self st)).
    rewrite Hexp, Hw.
    transitivity ((let* _ := @V100.show_history W in ret true)
                    (entered command rest st)); [reflexivity|].
    unfold bind. rewrite show_history_events. simpl. now rewrite app_nil_r. }
  rewrite Hex. simpl. rewrite app_nil_r, last_n_snoc, enumerate_app.
  rewrite map_app. reflexivity.
Qed.


(** ** The minimal terminal *)

(** X19. In the minimal terminal a navigation that fails does not end the
    session: [cd <path>] gives the path, trimmed and otherwise as typed, to
    [os.chdir]; on success the directory is read back from the host. When
    [os.chdir] raises, one line is printed and nothing changes; when
    [os.getcwd()] raises after the move, the same line is printed, the
    process has moved and the session's directory is as before. In every
    case the loop goes on. *)
Theorem minimal_cd_line {W} (H : Host W)
  (sr : string -> string -> W -> result (string * string) * W)
  (st : St W) (raw : string) (rest : list input_event) :
  stdin st = Line raw :: rest ->
  Py.startswith "cd " (Py.lower (Py.strip raw)) = true ->
  let new_dir := Py.strip (Py.drop 3 (Py.strip raw)) in
  (new_dir == "~") = false ->
  let p := Prompt (path_basename H (current_dir (self st)) +:+ "> ") in
  Minimal.loop_body H sr st
  = match os_chdir H new_dir (world st) with
    | Ok w =>
        match os_getcwd H w with
        | Ok d =>
            (Ok Running,
             {| world := w;
                self := set_current_dir d (self st);
                stdin := rest |}, [p])
        | Raise _ =>
            (Ok Running, {| world := w; self := self st; stdin := rest |},
             [p; Stdout ("Directory not found: " +:+ new_dir)])
        end
    | Raise _ =>
        (Ok Running, advance rest st,
         [p; Stdout ("Directory not found: " +:+ new_dir)])
    end.
Proof.
  intros Hin Hcd new_dir Htilde p.
  destruct (prefix_split _ _ Hcd) as [L HL].
  unfold Minimal.loop_body. rewrite bind_get_self.
  unfold bind at 1, INPUT. rewrite Hin.
  assert (E1 : isin (Py.lower (Py.strip raw)) ["exit"; "quit"] = false)
    by (rewrite HL; reflexivity).
  assert (E2 : (Py.lower (Py.strip raw) == "cd") = false)
    by (rewrite HL; reflexivity).
  rewrite E1, E2, Hcd. fold new_dir. rewrite Htilde.
  m_unfold. destruct (os_chdir H new_dir (world st)) as [w|e]; [|reflexivity].
  simpl. destruct (os_getcwd H w); reflexivity.
Qed.

(** X20. In the minimal terminal [cd] alone sets the session's directory to the
    home directory before it asks the host to go there, and does not read
    it back. When the host refuses, the exception is not caught: it leaves
    the loop and [run], and the session's directory is the home directory
    although the process did not move. *)
Theorem minimal_bare_cd {W} (H : Host W)
  (sr : string -> string -> W -> result (string * string) * W)
  (st : St W) (raw home : string) (rest : list input_event) (fuel : nat) :
  stdin st = Line raw :: rest ->
  Py.lower (Py.strip raw) = "cd" ->
  path_home H (world st) = Ok home ->
  let p := Prompt (path_basename H (current_dir (self st)) +:+ "> ") in
  let moved := set_current_dir home (self st) in
  match os_chdir H home (world st) with
  | Ok w =>
      Minimal.loop_body H sr st
      = (Ok Running, {| world := w; self := moved; stdin := rest |}, [p])
  | Raise e =>
      Minimal.loop_body H sr st
      = (Raise e, {| world := world st; self := moved; stdin := rest |}, [p])
      /\ fst (Minimal.run H sr (S fuel) st)
         = (Raise e, {| world := world st; self := moved; stdin := rest |})
  end.
Proof.
  intros Hin Hw Hhome p moved.
  assert (Hb : Minimal.loop_body H sr st
               = match os_chdir H home (world st) with
                 | Ok w =>
                     (Ok Running,
                      {| world := w; self := moved; stdin := rest |}, [p])
                 | Raise e =>
                     (Raise e,
                      {| world := world st; self := moved; stdin := rest |},
                      [p])
                 end).
  { unfold Minimal.loop_body. rewrite bind_get_self.
    unfold bind at 1, INPUT. rewrite Hin, Hw.
    m_unfold. rewrite Hhome. simpl.
    destruct (os_chdir H home (world st)); reflexivity. }
  destruct (os_chdir H home (world st)) as [w|e]; [exact Hb|].
  split; [exact Hb|].
  unfold Minimal.run, bind at 1, print, emit. simpl.
  unfold bind at 1. now rewrite Hb.
Qed.

(** ** Witnesses on the POSIX hosts *)

Lemma posix_make_all_keeps_cwd (p : string) (l : list string)
  (w w' : Posix.machine) :
  Posix.make_all p l w = Ok w' -> Posix.cwd w' = Posix.cwd w.
Proof.
  revert w. induction l as [|a l IH]; intros w; simpl.
  - now intros [= ->].
  - destruct (isin a (Posix.files w)); [discriminate|].
    intros Hm. apply IH in Hm. rewrite Hm.
    now destruct (isin a (Posix.dirs w)).
Qed.

Lemma posix_popen_keeps_cwd (cmd cwd : string) (w : Posix.machine) :
  Posix.cwd (snd (Posix.popen cmd cwd w)) = Posix.cwd w.
Proof. unfold Posix.popen. now destruct (Posix.isdir cwd w). Qed.

(** ** The exact built-ins *)

Lemma unexpanded_word {W} (command w : string) (c : ascii) (st : St W) :
  aliases (self st) !! command = None ->
  Py.lower command = String c w ->
  nospace (String c w) = true ->
  expand_aliases (aliases (self st)) command = command
  /\ (Py.strip command == "") = false.
Proof.
  intros Hal Hw Hn. rewrite <- Hw, nospace_lower in Hn. split.
  - apply expand_aliases_miss. rewrite split_word; [exact Hal|].
    split; [|exact Hn]. intros ->. discriminate.
  - destruct command as [|x s]; [discriminate|].
    simpl in Hn. apply andb_true_iff in Hn as [Hx _].
    apply negb_true_iff in Hx. now apply strip_nonempty.
Qed.

(** X17. [pwd], in any letter case when the word is not an alias, prints the
    directory the session holds and changes nothing. *)
Theorem pwd_prints_directory {W} (H : Host W) (rev : revision)
  (command : string) (st : St W) :
  aliases (self st) !! command = None ->
  Py.lower command = "pwd" ->
  execute_command rev H command st
  = (Ok true, st, [Stdout (current_dir (self st))]).
Proof.
  intros Hal Hw.
  destruct (unexpanded_word command _ _ st Hal Hw eq_refl) as [Hexp Hne].
  destruct rev; unfold execute_command, V100.execute_command,
    V101.execute_command; rewrite Hne, bind_get_self, Hexp, Hw; reflexivity.
Qed.

(** X18. [clear] and [cls], in any letter case when the word is not an alias,
    run the platform's command through [os.system]: [cls] on Windows,
    [clear] elsewhere. *)
Theorem clear_runs_platform_command {W} (H : Host W) (rev : revision)
  (command : string) (st : St W) :
  aliases (self st) !! command = None ->
  isin (Py.lower command) ["clear"; "cls"] = true ->
  let shell := if system (self st) == "windows" then "cls" else "clear" in
  execute_command rev H command st
  = (Ok true, set_world (os_system H shell (world st)) st, [System shell]).
Proof.
  intros Hal Hin shell.
  assert (Hw : Py.lower command = "clear" \/ Py.lower command = "cls").
  { unfold isin in Hin. simpl in Hin. rewrite orb_false_r in Hin.
    apply orb_true_iff in Hin as [Hi|Hi]; apply String.eqb_eq in Hi; auto. }
  assert (He : expand_aliases (aliases (self st)) command = command
               /\ (Py.strip command == "") = false)
    by (destruct Hw as [Hw|Hw]; eapply unexpanded_word; eauto).
  destruct He as [Hexp Hne].
  destruct rev; unfold execute_command, V100.execute_command,
    V101.execute_command; rewrite Hne, bind_get_self, Hexp;
    destruct Hw as [Hw|Hw]; rewrite Hw; reflexivity.
Qed.

Lemma execute_command_false_causes_witness :
  Py.startswith "cd "
    (Py.lower
       (expand_aliases
          (aliases (self (Posix.boot V100.load_aliases Posix.work [])))
          "cd nosuch")) = true.
Proof.
  destruct (execute_command_false_causes Posix.host R100 "cd nosuch"
              (Posix.boot V100.load_aliases Posix.work [])
              (Posix.boot V100.load_aliases Posix.work [])
              [Stdout "Directory not found: /work/nosuch"]
              ltac:(vm_compute; reflexivity))
    as [_ [_ [[Hx _]|[[Hcd|Hcd] _]]]].
  - vm_compute in Hx. discriminate.
  - exact Hcd.
  - vm_compute in Hcd. discriminate.
Defined.

Lemma execute_command_raise_cause_witness :
  path_home headless (world (Posix.boot V100.load_aliases Posix.work []))
  = Raise "Could not determine home directory.".
Proof.
  exact (proj1 (proj2
    (execute_command_raise_cause headless R100 "cd"
       (Posix.boot V100.load_aliases Posix.work [])
       (Posix.boot V100.load_aliases Posix.work [])
       "Could not determine home directory." []
       ltac:(vm_compute; reflexivity)))).
Defined.

Lemma session_consistent_witness :
  consistent Posix.host
    (snd (fst (run R101 Posix.host 5
                 (Posix.boot V101.load_aliases Posix.work
                    [Line "mkdir sub"; Line "cd sub"; Line "ls"; Line "xyz"])))).
Proof.
  refine (proj1 (session_consistent Posix.host _ _ _ _ R101 5
                   (Posix.boot V101.load_aliases Posix.work
                      [Line "mkdir sub"; Line "cd sub"; Line "ls";
                       Line "xyz"]) _)).
  - reflexivity.
  - intros cmd cwd w. simpl. f_equal. apply posix_popen_keeps_cwd.
  - intros p w w' Hm. simpl. f_equal.
    apply (posix_make_all_keeps_cwd _ _ _ _ Hm).
  - intros p w w' _. now exists (Posix.cwd w').
  - reflexivity.
Defined.


Lemma run_without_login_witness :
  fst (run R100 headless 4
         (Posix.boot V100.load_aliases Posix.work [Line "exit"]))
  = (Ok Running, Posix.boot V100.load_aliases Posix.work [Line "exit"]).
Proof.
  refine (proj2 (run_without_login headless R100 4
                   (Posix.boot V100.load_aliases Posix.work [Line "exit"])
                   "[Errno 25] Inappropriate ioctl for device" _)).
  reflexivity.
Defined.

Lemma exit_in_any_case_witness :
  execute_command R101 Posix.host "QuIt"
    (Posix.boot V101.load_aliases Posix.work [])
  = (Ok false, Posix.boot V101.load_aliases Posix.work [],
     [Stdout "Goodbye!"]).
Proof.
  refine (exit_in_any_case Posix.host R101 "QuIt"
            (Posix.boot V101.load_aliases Posix.work []) _ _);
    reflexivity.
Defined.

Lemma help_in_any_case_witness :
  execute_command R101 Posix.host "Help"
    (Posix.boot V101.load_aliases Posix.work [])
  = external_command Posix.host "Help"
      (Posix.boot V101.load_aliases Posix.work []).
Proof.
  refine (help_in_any_case Posix.host R101 "Help"
            (Posix.boot V101.load_aliases Posix.work []) _ _);
    reflexivity.
Defined.

Lemma listing_bare_verb_witness :
  execute_command R100 Posix.host "DIR"
    (Posix.boot V100.load_aliases Posix.work [])
  = (Ok true, Posix.boot V100.load_aliases Posix.work [], [System "ls "]).
Proof.
  refine (listing_bare_verb Posix.host R100 "DIR"
            (Posix.boot V100.load_aliases Posix.work []) _ _).
  - vm_compute. reflexivity.
  - reflexivity.
Defined.

Lemma bare_alias_dispatch_witness :
  execute_command R100 Posix.host "cls"
    (Posix.boot V100.load_aliases Posix.work [])
  = external_command Posix.host "clear "
      (Posix.boot V100.load_aliases Posix.work []).
Proof.
  refine (bare_alias_dispatch Posix.host R100 "cls" "clear"
            (Posix.boot V100.load_aliases Posix.work []) _ _).
  - vm_compute. reflexivity.
  - split; [discriminate | reflexivity].
Defined.

Lemma navigation_report_witness :
  same_attributes (Posix.boot V100.load_aliases Posix.work [])
    (Posix.boot V100.load_aliases (Posix.set_cwd "/home" Posix.work) []).
Proof.
  refine (proj1 (navigation_report Posix.host "../home"
                   (Posix.boot V100.load_aliases Posix.work [])
                   (Posix.boot V100.load_aliases
                      (Posix.set_cwd "/home" Posix.work) [])
                   (Ok true) [] _)).
  vm_compute. reflexivity.
Defined.

Lemma navigation_plain_path_witness :
  change_directory vanishing "tmp"
    {| world := with_tmp; self := Posix.session V100.load_aliases with_tmp;
       stdin := [] |}
  = (Ok false,
     {| world := vanish (Posix.set_cwd "/work/tmp" with_tmp);
        self := Posix.session V100.load_aliases with_tmp;
        stdin := [] |},
     [Stdout ("Error changing directory: "
              +:+ "[Errno 2] No such file or directory")]).
Proof.
  refine (navigation_plain_path vanishing "tmp"
            {| world := with_tmp;
               self := Posix.session V100.load_aliases with_tmp;
               stdin := [] |} _ _ _);
    reflexivity.
Defined.

Lemma history_lists_itself_witness :
  fst (loop_body R100 Posix.host
         (Posix.boot V100.load_aliases Posix.work [Line " History "]))
  = (Ok Running,
     entered "History" []
       (Posix.boot V100.load_aliases Posix.work [Line " History "])).
Proof.
  refine (f_equal fst
            (proj1 (history_lists_itself Posix.host
                      (Posix.boot V100.load_aliases Posix.work
                         [Line " History "])
                      " History " "user" [] _ _ _ _)));
    reflexivity.
Defined.

Lemma minimal_cd_line_witness :
  Minimal.loop_body vanishing Posix.popen
    {| world := with_tmp; self := Posix.minimal_session with_tmp;
       stdin := [Line "cd tmp"; Line "exit"] |}
  = (Ok Running,
     {| world := vanish (Posix.set_cwd "/work/tmp" with_tmp);
        self := Posix.minimal_session with_tmp;
        stdin := [Line "exit"] |},
     [Prompt "work> "; Stdout "Directory not found: tmp"]).
Proof.
  refine (minimal_cd_line vanishing Posix.popen
            {| world := with_tmp; self := Posix.minimal_session with_tmp;
               stdin := [Line "cd tmp"; Line "exit"] |}
            "cd tmp" [Line "exit"] _ _ _);
    reflexivity.
Defined.

Lemma minimal_bare_cd_witness :
  fst (Minimal.run Posix.host Posix.popen 3
         {| world := homeless; self := Posix.minimal_session homeless;
            stdin := [Line "cd"; Line "exit"] |})
  = (Raise "[Errno 2] No such file or directory: '/home/user'",
     {| world := homeless;
        self := set_current_dir "/home/user"
                  (Posix.minimal_session homeless);
        stdin := [Line "exit"] |}).
Proof.
  refine (proj2 (minimal_bare_cd Posix.host Posix.popen
                   {| world := homeless;
                      self := Posix.minimal_session homeless;
                      stdin := [Line "cd"; Line "exit"] |}
                   "cd" "/home/user" [Line "exit"] 2 _ _ _));
    reflexivity.
Defined.

Lemma pwd_prints_directory_witness :
  execute_command R100 Posix.host "PWD"
    (Posix.boot V100.load_aliases Posix.work [])
  = (Ok true, Posix.boot V100.load_aliases Posix.work [], [Stdout "/work"]).
Proof.
  refine (pwd_prints_directory Posix.host R100 "PWD"
            (Posix.boot V100.load_aliases Posix.work []) _ _).
  - vm_compute. reflexivity.
  - reflexivity.
Defined.

Lemma clear_runs_platform_command_witness :
  execute_command R101 Posix.host "CLS"
    (Posix.boot V101.load_aliases Posix.work [])
  = (Ok true, Posix.boot V101.load_aliases Posix.work [], [System "clear"]).
Proof.
  refine (clear_runs_platform_command Posix.host R101 "CLS"
            (Posix.boot V101.load_aliases Posix.work []) _ _).
  - vm_compute. reflexivity.
  - reflexivity.
Defined.

Lemma execute_command_attributes_witness :
  self (snd (fst (execute_command R101 Posix.host "mkdir sub"
                    (Posix.boot V101.load_aliases Posix.work []))))
  = self (Posix.boot V101.load_aliases Posix.work []).
Proof.
  refine (proj2 (execute_command_attributes Posix.host R101 "mkdir sub"
                   (Posix.boot V101.load_aliases Posix.work [])) _).
  reflexivity.
Defined.

Lemma session_loop_outcomes_witness :
  stdin (Posix.boot V100.load_aliases Posix.work [Line "Exit"]) = []
  \/ (exists rest,
        stdin (Posix.boot V100.load_aliases Posix.work [Line "Exit"])
        = EOFError :: rest)
  \/ (exists raw rest,
        stdin (Posix.boot V100.load_aliases Posix.work [Line "Exit"])
        = Line raw :: rest
        /\ (Py.strip raw == "") = false
        /\ fst (fst (execute_command R100 Posix.host (Py.strip raw)
                       (entered (Py.strip raw) rest
                          (Posix.boot V100.load_aliases Posix.work
                             [Line "Exit"])))) = Ok false).
Proof.
  refine (proj2 (proj2 (session_loop_outcomes Posix.host R100 0
                          (Posix.boot V100.load_aliases Posix.work
                             [Line "Exit"]))) _).
  reflexivity.
Defined.

(** ** Checks of the string methods and of the POSIX host *)

Example split_words : Py.split "  ll   -a	b  " = ["ll"; "-a"; "b"].
Proof. reflexivity. Qed.

Example split1_keeps_tail : Py.split1 "mkdir   a b  " = ["mkdir"; "a b  "].
Proof. reflexivity. Qed.

Example split1_bare : Py.split1 "mkdir   " = ["mkdir"].
Proof. reflexivity. Qed.

Example strip_both_ends : Py.strip "  a b  " = "a b".
Proof. reflexivity. Qed.

Example lower_ascii : Py.lower "MkDir X" = "mkdir x".
Proof. reflexivity. Qed.

Example posix_dirname :
  map Posix.dirname ["/"; "//"; "/a"; "/a/"; "a"; "/a/b"]
  = ["/"; "//"; "/"; "/a"; ""; "/a"].
Proof. reflexivity. Qed.

Example posix_normpath :
  map Posix.normpath [""; "/work/../.."; "a/../.."; "/work/./x/../y"; "//a"]
  = ["."; "/"; ".."; "/work/y"; "//a"].
Proof. reflexivity. Qed.

Example posix_double_slash :
  Posix.isdir "//" Posix.work = true
  /\ change_directory Posix.host "//"
       (Posix.boot V100.load_aliases Posix.work [])
     = (Ok true, Posix.boot V100.load_aliases Posix.at_root [], []).
Proof. split; reflexivity. Qed.

(** The scenario of revision 1.0.1: [mkdir sub], [cd sub], [cd -], [pwd]. *)
Example scenario_101 :
  let '(r, st', evs) :=
    run R101 Posix.host 4
      (Posix.boot V101.load_aliases Posix.work
         [Line "mkdir sub"; Line "cd sub"; Line "cd -"; Line "pwd"]) in
  r = Ok Running
  /\ current_dir (self st') = "/work"
  /\ Posix.cwd (world st') = "/work"
  /\ Posix.isdir "/work/sub" (world st') = true
  /\ List.filter (fun e => negb (is_prompt e)) evs
     = [Stdout (Py.times "=" 50); Stdout "Simple Cross-Platform Terminal";
        Stdout "Running on: Linux 6.1.0";
        Stdout "Type 'help' for commands, 'exit' to quit";
        Stdout (Py.times "=" 50);
        Stdout "Directory created: sub"; Stdout "/work"].
Proof. vm_compute. repeat split; reflexivity. Qed.
